(** * Roofing competitor analyzer: the analysis pipeline of [app.py]

    A shallow embedding of the competitor-analysis pipeline
    (class [RoofingCompetitorAnalyzer], [create_competitor_dataframe] and the
    summary computations of [main]) and the properties of it that the
    specification states.

    Conventions of the model.
    - Text is ASCII: a Python [str] is a [string], one [ascii] per character.
    - A Python [float] that the program only copies, compares, adds, divides by
      a count or rounds to two decimals is a rational ([Q]).
    - A JSON object whose keys may be absent is a record of [option] fields;
      [d.get(k, default)] is a [match] with the default in the [None] branch.
    - The three remote services, the geodesic distance of [geopy] and the
      iteration order of a Python [set] are the fields of a [World] record that
      the pipeline receives explicitly.
    - [time.sleep] and the progress widgets have no effect on a result and are
      left out. *)

From Stdlib Require Import List String Ascii Bool Arith ZArith QArith Qround Qabs.
From Stdlib Require Import DecimalString Lia Permutation Sorted.
Import ListNotations.

Close Scope Q_scope.
Open Scope string_scope.
Open Scope nat_scope.

(** ** Python string operations *)

Module PyStr.

(** [c.lower()] for one ASCII character. *)
Definition lower_char (c : ascii) : ascii :=
  let n := nat_of_ascii c in
  if (65 <=? n) && (n <=? 90) then ascii_of_nat (n + 32) else c.

Definition upper_char (c : ascii) : ascii :=
  let n := nat_of_ascii c in
  if (97 <=? n) && (n <=? 122) then ascii_of_nat (n - 32) else c.

Definition is_alpha (c : ascii) : bool :=
  let n := nat_of_ascii c in
  ((65 <=? n) && (n <=? 90)) || ((97 <=? n) && (n <=? 122)).

(** [s.lower()] *)
Fixpoint lower (s : string) : string :=
  match s with
  | EmptyString => EmptyString
  | String c r => String (lower_char c) (lower r)
  end.

(** [s.title()]: the first letter of every run of letters in upper case, the
    other letters in lower case. *)
Fixpoint title_from (in_word : bool) (s : string) : string :=
  match s with
  | EmptyString => EmptyString
  | String c r =>
      if is_alpha c
      then String (if in_word then lower_char c else upper_char c) (title_from true r)
      else String c (title_from false r)
  end.

Definition title (s : string) : string := title_from false s.

(** [s.startswith(p)] *)
Fixpoint startswith (s p : string) : bool :=
  match p, s with
  | EmptyString, _ => true
  | String _ _, EmptyString => false
  | String a p', String b s' => Ascii.eqb a b && startswith s' p'
  end.

(** [sub in s] *)
Fixpoint contains (s sub : string) : bool :=
  startswith s sub ||
  match s with
  | EmptyString => false
  | String _ r => contains r sub
  end.

(** [s.count(sub)]: the occurrences of [sub] found by scanning [s] from the
    left and resuming after the end of each occurrence, so that counted
    occurrences do not overlap.  [skip] is the number of characters of the
    last counted occurrence still to step over. *)
Fixpoint count_from (skip : nat) (s sub : string) : Z :=
  match s with
  | EmptyString =>
      match skip with
      | O => if startswith EmptyString sub then 1%Z else 0%Z
      | S _ => 0%Z
      end
  | String _ r =>
      match skip with
      | S k => count_from k r sub
      | O =>
          if startswith s sub
          then (1 + count_from (String.length sub - 1) r sub)%Z
          else count_from 0 r sub
      end
  end.

Definition count (s sub : string) : Z := count_from 0 s sub.

(** [sep.join(parts)] *)
Fixpoint join (sep : string) (parts : list string) : string :=
  match parts with
  | [] => EmptyString
  | [p] => p
  | p :: rest => p ++ sep ++ join sep rest
  end.

(** [x in xs] for a list of strings. *)
Definition mem (x : string) (xs : list string) : bool :=
  existsb (String.eqb x) xs.

Fixpoint take (n : nat) (s : string) : string :=
  match n, s with
  | S k, String c r => String c (take k r)
  | _, _ => EmptyString
  end.

End PyStr.

(** ** The regular expressions of [price_patterns]

    Every pattern of the program is a sequence of single-character atoms (a
    literal, a class or the dot), each with an optional quantifier.  The
    matcher is the backtracking matcher of Python's [re]: a greedy quantifier
    takes as many characters as it can and gives them back one by one while
    the rest of the pattern fails. *)

Module Re.

Inductive quantifier := One | Opt | Star | Plus.

Record item := mk_item { accepts : ascii -> bool; quant : quantifier }.

Definition regex := list item.

(** Atoms.  Under [re.IGNORECASE] a literal matches both cases. *)
Definition lit (c : ascii) : ascii -> bool :=
  fun x => Ascii.eqb (PyStr.lower_char x) (PyStr.lower_char c).

Definition is_digit (x : ascii) : bool :=
  let n := nat_of_ascii x in (48 <=? n) && (n <=? 57).

(** [\s]: space, tab, newline, vertical tab, form feed, carriage return and
    the four separators 28..31. *)
Definition is_space (x : ascii) : bool :=
  let n := nat_of_ascii x in
  (n =? 32) || ((9 <=? n) && (n <=? 13)) || ((28 <=? n) && (n <=? 31)).

(** [.]: any character except the newline. *)
Definition dot (x : ascii) : bool := negb (nat_of_ascii x =? 10).

(** [[\d,]] and [[\d.]] *)
Definition digit_or_comma (x : ascii) : bool := is_digit x || Ascii.eqb x ",".
Definition digit_or_period (x : ascii) : bool := is_digit x || Ascii.eqb x ".".

(** A greedy repetition of [a] followed by the continuation [k]: one more
    character is tried first, the continuation here is the fallback. *)
Fixpoint greedy (a : ascii -> bool) (k : string -> option nat) (s : string)
  : option nat :=
  match s with
  | String c r =>
      if a c
      then match greedy a k r with
           | Some n => Some (S n)
           | None => k s
           end
      else k s
  | EmptyString => k s
  end.

(** [match_here re s]: the length of the match of [re] that Python finds at
    the start of [s], if there is one. *)
Fixpoint match_here (re : regex) (s : string) : option nat :=
  match re with
  | [] => Some 0
  | it :: re' =>
      let a := accepts it in
      match quant it with
      | One =>
          match s with
          | String c r => if a c then option_map S (match_here re' r) else None
          | EmptyString => None
          end
      | Opt =>
          match s with
          | String c r =>
              if a c
              then match match_here re' r with
                   | Some n => Some (S n)
                   | None => match_here re' s
                   end
              else match_here re' s
          | EmptyString => match_here re' s
          end
      | Star => greedy a (match_here re') s
      | Plus =>
          match s with
          | String c r =>
              if a c then option_map S (greedy a (match_here re') r) else None
          | EmptyString => None
          end
      end
  end.

(** [re.findall(pattern, s)] for a pattern without groups: the matched
    substrings, leftmost first, the search resuming at the end of each
    match.  [skip] is the number of characters of the last match still to
    step over. *)
Fixpoint findall_from (skip : nat) (re : regex) (s : string) : list string :=
  match s with
  | EmptyString =>
      match skip, match_here re EmptyString with
      | O, Some _ => [EmptyString]
      | _, _ => []
      end
  | String _ r =>
      match skip with
      | S k => findall_from k re r
      | O =>
          match match_here re s with
          | Some n => PyStr.take n s :: findall_from (n - 1) re r
          | None => findall_from 0 re r
          end
      end
  end.

Definition findall (re : regex) (s : string) : list string :=
  findall_from 0 re s.

(** Pattern syntax. *)
Definition one (a : ascii -> bool) : item := mk_item a One.
Definition opt (a : ascii -> bool) : item := mk_item a Opt.
Definition star (a : ascii -> bool) : item := mk_item a Star.
Definition plus (a : ascii -> bool) : item := mk_item a Plus.

Fixpoint word (w : string) : regex :=
  match w with
  | EmptyString => []
  | String c r => one (lit c) :: word r
  end.

(** [\$[\d,]+] *)
Definition dollar_amount : regex := [one (lit "$"); plus digit_or_comma].

End Re.

(** ** Outcomes, dictionaries and numbers *)

Inductive exn :=
| Exception (message : string)
| ZeroDivisionError
| ValueError.

Inductive outcome (A : Type) :=
| Return (a : A)
| Raise (e : exn).

Arguments Return {A} a.
Arguments Raise {A} e.

(** A Python [dict] with string keys, as the list of its items in insertion
    order: assigning to a key that is present replaces its value in place,
    assigning to a new key appends an item. *)
Module Dict.

Definition t (V : Type) := list (string * V).

Fixpoint get {V} (d : t V) (k : string) : option V :=
  match d with
  | [] => None
  | (k', v) :: r => if String.eqb k k' then Some v else get r k
  end.

Fixpoint set {V} (d : t V) (k : string) (v : V) : t V :=
  match d with
  | [] => [(k, v)]
  | (k', v') :: r =>
      if String.eqb k k' then (k', v) :: r else (k', v') :: set r k v
  end.

Definition keys {V} (d : t V) : list string := map fst d.

End Dict.

(** [x < y] on rationals, as a boolean. *)
Definition Qlt_bool (x y : Q) : bool := negb (Qle_bool y x).

(** [sum(xs)] for rationals and for integers: the additions start from 0. *)
Definition Qsum (xs : list Q) : Q := fold_left Qplus xs 0%Q.
Definition Zsum (xs : list Z) : Z := fold_left Z.add xs 0%Z.

(** The integer nearest to [x], a tie going to the even neighbour. *)
Definition round_half_even (x : Q) : Z :=
  let f := Qfloor x in
  match Qcompare (2 * (x - inject_Z f))%Q 1%Q with
  | Lt => f
  | Gt => (f + 1)%Z
  | Eq => if Z.even f then f else (f + 1)%Z
  end.

(** [round(x, 2)]: the nearest multiple of 0.01, a tie going to the even
    one.  The tie is decided on the exact value of [x]. *)
Definition round2 (x : Q) : Q := (inject_Z (round_half_even (x * 100)) / 100)%Q.

(** ** Data model *)

Definition Coordinate := (Q * Q)%type.

(** One review of a details record: the program reads its ['text'] only. *)
Module Review.
Record t := mk { text : option string }.
End Review.

(** The [result] object of a place-details response, restricted to the
    requested fields; any of them may be missing. *)
Module Details.
Record t := mk {
  name : option string;
  formatted_address : option string;
  formatted_phone_number : option string;
  rating : option Q;
  user_ratings_total : option Z;
  website : option string;
  reviews : option (list Review.t)
}.

(** The empty dict [{}]. *)
Definition empty : t := mk None None None None None None None.

(** [not details]: a dict is false exactly when it has no key. *)
Definition is_empty (d : t) : bool :=
  match name d, formatted_address d, formatted_phone_number d, rating d,
        user_ratings_total d, website d, reviews d with
  | None, None, None, None, None, None, None => true
  | _, _, _, _, _, _, _ => false
  end.
End Details.

(** A business stub of a nearby-search page. *)
Module Place.
Record t := mk {
  place_id : string;
  name : option string;
  location : Coordinate
}.
End Place.

(** The responses of the nearby-search service to one search: every page has
    a status and results; a page that carries a [next_page_token] is followed
    by the page that the token resolves to.  A search is answered by finitely
    many pages, and every request is answered: a failure of the transport is
    not part of the model. *)
Inductive SearchPages :=
| last_page (status : string) (results : list Place.t)
| page_with_token (status : string) (results : list Place.t)
                  (next_page_token : string) (next : SearchPages).

Definition page_status (p : SearchPages) : string :=
  match p with
  | last_page s _ => s
  | page_with_token s _ _ _ => s
  end.

Definition page_results (p : SearchPages) : list Place.t :=
  match p with
  | last_page _ r => r
  | page_with_token _ r _ _ => r
  end.

Module GeocodeResponse.
Record t := mk { status : string; location : Coordinate }.
End GeocodeResponse.

Module DetailsResponse.
Record t := mk { status : string; result : Details.t }.
End DetailsResponse.

Module Competitor.
Record t := mk {
  name : string;
  address : string;
  phone : string;
  rating : Q;
  review_count : Z;
  website : string;
  distance_miles : Q;
  pricing_info : list string;
  services : list string;
  positive_keywords : list string;
  negative_keywords : list string;
  review_themes : Dict.t Z
}.
End Competitor.

(** What the program does not compute itself: the answers of the three
    services, the geodesic distance in miles and the order in which a [set]
    of strings is listed: [set_order l] is [list(set(l))], every element of
    [l] once, in an order that Python does not specify. *)
Record World := {
  geocode_api : string -> GeocodeResponse.t;
  nearbysearch_api : Coordinate -> Z -> SearchPages;
  details_api : string -> DetailsResponse.t;
  geodesic_miles : Coordinate -> Coordinate -> Q;
  set_order : list string -> list string;
  set_order_spec :
    forall l, NoDup (set_order l) /\ (forall x, In x (set_order l) <-> In x l)
}.

Definition is_OK (status : string) : bool := String.eqb status "OK".

(** ** The keyword taxonomy of [RoofingCompetitorAnalyzer.__init__] *)

Definition opportunity_keywords : list (string * list string) :=
  [ ("speed", ["fast"; "quick"; "prompt"; "timely"; "on time"; "efficient"]);
    ("quality", ["quality"; "excellent"; "professional"; "skilled"; "expert"; "craftsmanship"]);
    ("price", ["affordable"; "reasonable"; "cheap"; "expensive"; "overpriced"; "fair price"]);
    ("communication", ["responsive"; "communicative"; "explained"; "kept informed"; "poor communication"]);
    ("cleanup", ["clean"; "cleanup"; "messy"; "left debris"; "neat"; "tidy"]);
    ("warranty", ["warranty"; "guarantee"; "stands behind work"; "honor warranty"]);
    ("insurance", ["insurance"; "claim"; "insurance work"; "help with insurance"]);
    ("emergency", ["emergency"; "urgent"; "storm damage"; "leak"; "immediate"]);
    ("materials", ["materials"; "shingles"; "metal"; "tile"; "membrane"; "quality materials"]);
    ("experience", ["experienced"; "years in business"; "knowledgeable"; "inexperienced"]);
    ("scheduling", ["flexible"; "scheduling"; "appointment"; "showed up"; "no show"; "late"]);
    ("estimate", ["free estimate"; "accurate estimate"; "detailed quote"; "overestimate"]) ].

Definition negative_indicators : list string :=
  [ "disappointed"; "unprofessional"; "rude"; "late"; "no show"; "poor";
    "terrible"; "awful"; "bad"; "worst"; "avoid"; "scam"; "overcharged";
    "shoddy"; "cheap work"; "leaked"; "failed"; "damaged"; "nightmare" ].

Definition positive_indicators : list string :=
  [ "excellent"; "amazing"; "professional"; "recommend"; "great"; "fantastic";
    "wonderful"; "outstanding"; "perfect"; "impressed"; "satisfied"; "happy";
    "reliable"; "trustworthy"; "honest"; "fair"; "quality work" ].

(** [price_patterns] of [extract_pricing_from_reviews], in order. *)
Definition price_patterns : list Re.regex :=
  ([ Re.dollar_amount;
     [Re.plus Re.digit_or_comma; Re.star Re.is_space] ++ Re.word "dollar" ++ [Re.opt (Re.lit "s")];
     Re.word "cost" ++ [Re.star Re.dot] ++ Re.dollar_amount;
     Re.word "price" ++ [Re.star Re.dot] ++ Re.dollar_amount;
     Re.word "quote" ++ [Re.star Re.dot] ++ Re.dollar_amount;
     Re.word "estimate" ++ [Re.star Re.dot] ++ Re.dollar_amount;
     Re.dollar_amount ++ [Re.star Re.dot] ++ Re.word "square" ++ [Re.star Re.is_space] ++ Re.word "foot";
     [Re.plus Re.digit_or_period; Re.star Re.is_space] ++ Re.word "per"
       ++ [Re.star Re.is_space] ++ Re.word "square" ++ [Re.star Re.is_space] ++ Re.word "foot" ])%list.

(** [service_keywords] of [extract_services_from_text]. *)
Definition service_keywords : list string :=
  [ "roof repair"; "roof replacement"; "roof installation";
    "shingle"; "metal roof"; "tile roof"; "flat roof";
    "gutter"; "siding"; "leak repair"; "storm damage";
    "insurance claims"; "emergency repair"; "inspection";
    "maintenance"; "ventilation"; "skylight" ].

(** ** The methods of [RoofingCompetitorAnalyzer] *)

Definition geocode_address (w : World) (address : string) : outcome Coordinate :=
  let data := geocode_api w address in
  if is_OK (GeocodeResponse.status data)
  then Return (GeocodeResponse.location data)
  else Raise (Exception ("Geocoding failed: " ++ GeocodeResponse.status data)).

(** The [while 'next_page_token' in data] loop: [data] is the page received
    last, [all_results] the businesses accumulated so far. *)
Fixpoint follow_pages (data : SearchPages) (all_results : list Place.t)
  : list Place.t :=
  match data with
  | last_page _ _ => all_results
  | page_with_token _ _ _ next =>
      if is_OK (page_status next)
      then follow_pages next (all_results ++ page_results next)%list
      else all_results
  end.

(** The request carries [int(radius_miles * 1609.34)] metres; the answer of
    the service is taken as a function of the origin and of the radius in
    miles. *)
Definition search_nearby_roofing_companies
    (w : World) (origin : Coordinate) (radius_miles : Z) : list Place.t :=
  let data := nearbysearch_api w origin radius_miles in
  if is_OK (page_status data)
  then follow_pages data ([] ++ page_results data)%list
  else [].

Definition get_place_details (w : World) (place_id : string) : Details.t :=
  let data := details_api w place_id in
  if is_OK (DetailsResponse.status data)
  then DetailsResponse.result data
  else Details.empty.

(** [review.get('text', '')] *)
Definition review_text (review : Review.t) : string :=
  match Review.text review with
  | Some t => t
  | None => ""
  end.

(** [if match not in pricing_info: pricing_info.append(match)] *)
Definition add_match (pricing_info : list string) (m : string) : list string :=
  if PyStr.mem m pricing_info then pricing_info else (pricing_info ++ [m])%list.

(** The [for review in reviews] loop of [extract_pricing_from_reviews],
    started from the list [pricing_info]. *)
Definition pricing_loop (reviews : list Review.t) (pricing_info : list string)
  : list string :=
  fold_left
    (fun pricing_info review =>
       let text := PyStr.lower (review_text review) in
       fold_left
         (fun pricing_info pattern =>
            fold_left add_match (Re.findall pattern text) pricing_info)
         price_patterns pricing_info)
    reviews pricing_info.

Definition extract_pricing_from_reviews (reviews : list Review.t) : list string :=
  pricing_loop reviews [].

Definition extract_services_from_text (w : World) (text : string) : list string :=
  let text_lower := PyStr.lower text in
  let services :=
    fold_left
      (fun services keyword =>
         if PyStr.contains text_lower keyword
         then (services ++ [PyStr.title keyword])%list
         else services)
      service_keywords [] in
  set_order w services.

(** [all_text] of [analyze_review_keywords]: the lower-cased review texts
    joined by single spaces. *)
Definition review_blob (reviews : list Review.t) : string :=
  PyStr.join " " (map (fun review => PyStr.lower (review_text review)) reviews).

(** [sum(all_text.count(keyword) for keyword in keywords)] *)
Definition theme_count (all_text : string) (keywords : list string) : Z :=
  Zsum (map (fun keyword => PyStr.count all_text keyword) keywords).

(** The [for theme, keywords in ...items()] loop, started from [themes]. *)
Definition themes_loop (all_text : string)
    (vocabulary : list (string * list string)) (themes : Dict.t Z) : Dict.t Z :=
  fold_left
    (fun themes (entry : string * list string) =>
       let (theme, keywords) := entry in
       let count := theme_count all_text keywords in
       if (0 <? count)%Z then Dict.set themes theme count else themes)
    vocabulary themes.

Definition analyze_review_keywords (reviews : list Review.t)
  : list string * list string * Dict.t Z :=
  let all_text := review_blob reviews in
  let positive_found :=
    filter (fun keyword => PyStr.contains all_text keyword) positive_indicators in
  let negative_found :=
    filter (fun keyword => PyStr.contains all_text keyword) negative_indicators in
  let themes := themes_loop all_text opportunity_keywords [] in
  (positive_found, negative_found, themes).

Definition get_default {A : Type} (field : option A) (default : A) : A :=
  match field with
  | Some v => v
  | None => default
  end.

(** The body of the [for place in places] loop after the [continue] test:
    the competitor built from a stub and its details. *)
Definition build_competitor
    (w : World) (origin : Coordinate) (place : Place.t) (details : Details.t)
  : Competitor.t :=
  let distance := geodesic_miles w origin (Place.location place) in
  let reviews := get_default (Details.reviews details) [] in
  let pricing_info := extract_pricing_from_reviews reviews in
  let all_text := PyStr.join " " (map review_text reviews) in
  let services :=
    extract_services_from_text w
      (all_text ++ " " ++ get_default (Details.name details) "") in
  let '(positive_keywords, negative_keywords, review_themes) :=
    analyze_review_keywords reviews in
  Competitor.mk
    (get_default (Details.name details) "Unknown")
    (get_default (Details.formatted_address details) "Unknown")
    (get_default (Details.formatted_phone_number details) "Not available")
    (get_default (Details.rating details) 0%Q)
    (get_default (Details.user_ratings_total details) 0%Z)
    (get_default (Details.website details) "Not available")
    (round2 distance)
    pricing_info services positive_keywords negative_keywords review_themes.

(** The [for place in places] loop, [competitors] being the list built so
    far: a stub whose details are empty is passed over. *)
Definition process_places
    (w : World) (origin : Coordinate) (places : list Place.t)
    (competitors : list Competitor.t) : list Competitor.t :=
  fold_left
    (fun competitors place =>
       let details := get_place_details w (Place.place_id place) in
       if Details.is_empty details
       then competitors
       else (competitors ++ [build_competitor w origin place details])%list)
    places competitors.

(** [competitors.sort(key=lambda x: x.distance_miles)].
    Python's [list.sort] is modelled by the insertion sort that keeps equal
    keys in their order of arrival: an element goes in front of the first
    element of the sorted rest whose key is not smaller than its own. *)
Fixpoint insert_by_distance (c : Competitor.t) (sorted : list Competitor.t)
  : list Competitor.t :=
  match sorted with
  | [] => [c]
  | d :: rest =>
      if Qle_bool (Competitor.distance_miles c) (Competitor.distance_miles d)
      then c :: d :: rest
      else d :: insert_by_distance c rest
  end.

Fixpoint sort_by_distance (competitors : list Competitor.t) : list Competitor.t :=
  match competitors with
  | [] => []
  | c :: rest => insert_by_distance c (sort_by_distance rest)
  end.

(** The competitors in the order in which the loop builds them. *)
Definition discover_competitors
    (w : World) (your_address : string) (radius_miles : Z)
  : outcome (list Competitor.t) :=
  match geocode_address w your_address with
  | Raise e => Raise e
  | Return origin =>
      let places := search_nearby_roofing_companies w origin radius_miles in
      Return (process_places w origin places [])
  end.

(** [analyze_competitors]; [main] runs the same steps inline. *)
Definition analyze_competitors
    (w : World) (your_address : string) (radius_miles : Z)
  : outcome (list Competitor.t) :=
  match discover_competitors w your_address radius_miles with
  | Raise e => Raise e
  | Return competitors => Return (sort_by_distance competitors)
  end.

(** ** [create_competitor_dataframe] *)

(** [str(n)] for an integer. *)
Definition str_of_int (n : Z) : string := NilEmpty.string_of_int (Z.to_int n).

Module Row.
Record t := mk {
  Company : string;
  Distance : Q;
  Rating : Q;
  Reviews : Z;
  Phone : string;
  Website : string;
  Services : string;
  Pricing_Info : string;
  Positive_Keywords : string;
  Negative_Keywords : string;
  Review_Themes : string;
  Pricing_Found : string;
  Top_Complaints : string
}.
End Row.

Definition is_nil {A : Type} (l : list A) : bool :=
  match l with
  | [] => true
  | _ :: _ => false
  end.

Definition dataframe_row (comp : Competitor.t) : Row.t :=
  let themes_formatted :=
    PyStr.join "; "
      (map (fun item : string * Z => fst item ++ "(" ++ str_of_int (snd item) ++ ")")
           (firstn 5 (Competitor.review_themes comp))) in
  Row.mk
    (Competitor.name comp)
    (Competitor.distance_miles comp)
    (Competitor.rating comp)
    (Competitor.review_count comp)
    (Competitor.phone comp)
    (if String.eqb (Competitor.website comp) "Not available"
     then "N/A" else Competitor.website comp)
    (if is_nil (Competitor.services comp)
     then "Services not specified"
     else PyStr.join "; " (Competitor.services comp))
    (if is_nil (Competitor.pricing_info comp)
     then "No pricing found"
     else PyStr.join "; " (Competitor.pricing_info comp))
    (if is_nil (Competitor.positive_keywords comp)
     then "None found"
     else PyStr.join "; " (firstn 10 (Competitor.positive_keywords comp)))
    (if is_nil (Competitor.negative_keywords comp)
     then "None found"
     else PyStr.join "; " (firstn 10 (Competitor.negative_keywords comp)))
    (if String.eqb themes_formatted ""
     then "No themes identified" else themes_formatted)
    (if is_nil (Competitor.pricing_info comp) then "No" else "Yes")
    (if is_nil (Competitor.negative_keywords comp)
     then "None"
     else PyStr.join "; " (firstn 3 (Competitor.negative_keywords comp))).

Definition create_competitor_dataframe (competitors : list Competitor.t)
  : list Row.t :=
  map dataframe_row competitors.

(** ** The summary computations of [main] *)

(** [[c for c in competitors if c.rating > 0]] *)
Definition rated (competitors : list Competitor.t) : list Competitor.t :=
  filter (fun c => Qlt_bool 0 (Competitor.rating c)) competitors.

(** [sum(c.rating for c in competitors if c.rating > 0)
      / len([c for c in competitors if c.rating > 0])] *)
Definition avg_rating (competitors : list Competitor.t) : outcome Q :=
  let total := Qsum (map Competitor.rating (rated competitors)) in
  let n := Z.of_nat (List.length (rated competitors)) in
  if (n =? 0)%Z then Raise ZeroDivisionError else Return (total / inject_Z n)%Q.

Definition total_reviews (competitors : list Competitor.t) : Z :=
  Zsum (map Competitor.review_count competitors).

(** [Counter(xs)]: the number of occurrences of every element, the keys in
    the order of their first occurrence. *)
Definition Counter (xs : list string) : Dict.t Z :=
  fold_left
    (fun counts x => Dict.set counts x (get_default (Dict.get counts x) 0 + 1)%Z)
    xs [].

(** One entry of [gaps]: the three values that the message interpolates. *)
Module Gap.
Record t := mk { service : string; count : Z; total_competitors : Z }.

(** The message that [main] displays for an entry. *)
Definition message (g : t) : string :=
  service g ++ " (only " ++ str_of_int (count g) ++ "/"
    ++ str_of_int (total_competitors g) ++ " competitors offer this)".
End Gap.

(** [all_services], extended with the services of every competitor. *)
Definition all_services (competitors : list Competitor.t) : list string :=
  fold_left (fun acc comp => (acc ++ Competitor.services comp)%list) competitors [].

(** The service-gap loop.  The division is Python's true division, which
    raises [ZeroDivisionError] on a zero divisor; [0.3] is the literal of the
    comparison. *)
Definition service_gaps (competitors : list Competitor.t)
  : outcome (list Gap.t) :=
  let service_counter := Counter (all_services competitors) in
  let total_competitors := Z.of_nat (List.length competitors) in
  fold_left
    (fun (acc : outcome (list Gap.t)) (item : string * Z) =>
       match acc with
       | Raise e => Raise e
       | Return gaps =>
           let (service, count) := item in
           if (total_competitors =? 0)%Z then Raise ZeroDivisionError
           else if Qlt_bool (inject_Z count / inject_Z total_competitors)%Q (3 # 10)%Q
                then Return (gaps ++ [Gap.mk service count total_competitors])%list
                else Return gaps
       end)
    service_counter (Return []).

(** ** Notions used to state the properties *)

(** The pages of a search in the order in which the tokens lead to them, each
    as its status and its results. *)
Fixpoint page_sequence (p : SearchPages) : list (string * list Place.t) :=
  (page_status p, page_results p) ::
  match p with
  | last_page _ _ => []
  | page_with_token _ _ _ next => page_sequence next
  end.

(** The longest prefix of pages whose status is the success status. *)
Fixpoint successful_prefix (pages : list (string * list Place.t))
  : list (string * list Place.t) :=
  match pages with
  | [] => []
  | (status, results) :: rest =>
      if is_OK status then (status, results) :: successful_prefix rest else []
  end.

(** Every match of every pattern in every review, in the order in which the
    loops of [extract_pricing_from_reviews] meet them. *)
Definition all_price_matches (reviews : list Review.t) : list string :=
  flat_map
    (fun review =>
       flat_map
         (fun pattern => Re.findall pattern (PyStr.lower (review_text review)))
         price_patterns)
    reviews.

(** The elements of a list in the order of their first occurrence. *)
Fixpoint first_seen (l : list string) : list string :=
  match l with
  | [] => []
  | x :: r => x :: remove string_dec x (first_seen r)
  end.

(** [a] stands before [b] in the list [vocabulary]. *)
Definition before_in (vocabulary : list string) (a b : string) : Prop :=
  exists i j, nth_error vocabulary i = Some a
              /\ nth_error vocabulary j = Some b /\ i < j.

(** Ascending order of distance. *)
Definition distance_le (a b : Competitor.t) : Prop :=
  (Competitor.distance_miles a <= Competitor.distance_miles b)%Q.

(** The competitors at distance [d], in the order of the list. *)
Definition at_distance (d : Q) (competitors : list Competitor.t)
  : list Competitor.t :=
  filter (fun c => Qeq_bool (Competitor.distance_miles c) d) competitors.

(** A service is flagged when [gaps] has an entry for it. *)
Definition flagged (service : string) (gaps : list Gap.t) : Prop :=
  exists g, In g gaps /\ Gap.service g = service.

(** The stubs of a batch whose details are not empty. *)
Definition with_details (w : World) (places : list Place.t) : list Place.t :=
  filter
    (fun place => negb (Details.is_empty (get_place_details w (Place.place_id place))))
    places.

(** No string occurs twice in [l]. *)
Fixpoint distinct (l : list string) : bool :=
  match l with
  | [] => true
  | x :: r => negb (PyStr.mem x r) && distinct r
  end.

(** *** A sample provider

    A concrete [World] on which the statements below are instantiated.  Its
    geodesic distance is 69 miles per degree of latitude; a [set] is listed in
    the order of the last occurrence of its elements. *)

Definition scenario_review_text : string :=
  "The roof repair was fast, the crew was professional, and the quote was $8,500.".

Definition scenario_origin : Coordinate := (40 # 1, - 75 # 1)%Q.

Definition scenario_details : Details.t :=
  Details.mk (Some "Acme Roofing") (Some "1 Elm St") None (Some (45 # 10)%Q)
             (Some 12%Z) None (Some [Review.mk (Some scenario_review_text)]).

Definition sample_details (place_id : string) : DetailsResponse.t :=
  if String.eqb place_id "acme" then DetailsResponse.mk "OK" scenario_details
  else if String.eqb place_id "unrated" then
    DetailsResponse.mk "OK"
      (Details.mk (Some "Budget Roofs") None None None None None None)
  else if String.eqb place_id "overrated" then
    DetailsResponse.mk "OK"
      (Details.mk (Some "Star Roofing") None None (Some (7 # 1)%Q) (Some 3%Z) None None)
  else DetailsResponse.mk "NOT_FOUND" Details.empty.

Definition acme_stub : Place.t :=
  Place.mk "acme" (Some "Acme Roofing") (2762 # 69, - 75 # 1)%Q.
Definition unrated_stub : Place.t :=
  Place.mk "unrated" (Some "Budget Roofs") (2761 # 69, - 75 # 1)%Q.
Definition overrated_stub : Place.t :=
  Place.mk "overrated" (Some "Star Roofing") (2761 # 69, - 75 # 1)%Q.
Definition closed_stub : Place.t :=
  Place.mk "closed" None (40 # 1, - 75 # 1)%Q.

Definition sample_world (pages : SearchPages) : World :=
  {| geocode_api := fun address =>
       if String.eqb address ""
       then GeocodeResponse.mk "ZERO_RESULTS" (0 # 1, 0 # 1)%Q
       else GeocodeResponse.mk "OK" scenario_origin;
     nearbysearch_api := fun _ _ => pages;
     details_api := sample_details;
     geodesic_miles := fun a b => (Qabs (fst b - fst a) * (69 # 1))%Q;
     set_order := nodup string_dec;
     set_order_spec := fun l =>
       conj (NoDup_nodup string_dec l) (fun x => nodup_In string_dec l x) |}.

Definition scenario_world : World := sample_world (last_page "OK" [acme_stub]).


(** Three pages: the third one is refused by the service. *)
Definition sample_pages : SearchPages :=
  page_with_token "OK" [acme_stub; unrated_stub] "t1"
    (page_with_token "OK" [closed_stub; overrated_stub] "t2"
       (last_page "INVALID_REQUEST" [acme_stub])).

(** Ten competitors, of which three offer "Gutter", two "Siding" and one
    "Skylight". *)
Definition offering (name : string) (services : list string) : Competitor.t :=
  Competitor.mk name "Unknown" "Not available" (45 # 10)%Q 10%Z "Not available"
                (1 # 1)%Q [] services [] [] [].

Definition ten_competitors : list Competitor.t :=
  [ offering "A" ["Gutter"; "Skylight"]; offering "B" ["Gutter"];
    offering "C" ["Siding"; "Gutter"]; offering "D" ["Siding"];
    offering "E" []; offering "F" []; offering "G" []; offering "H" [];
    offering "I" []; offering "J" [] ].

(** ** The remaining summary computations and the control flow of [main] *)

(** [min(competitors, key=lambda x: x.distance_miles)]: the first competitor
    of smallest distance; [best] is the smallest met so far, replaced only by
    a strictly smaller one.  [min] of an empty list raises [ValueError]. *)
Fixpoint min_by_distance (best : Competitor.t) (rest : list Competitor.t)
  : Competitor.t :=
  match rest with
  | [] => best
  | c :: r =>
      if Qlt_bool (Competitor.distance_miles c) (Competitor.distance_miles best)
      then min_by_distance c r
      else min_by_distance best r
  end.

Definition closest (competitors : list Competitor.t) : outcome Competitor.t :=
  match competitors with
  | [] => Raise ValueError
  | c :: r => Return (min_by_distance c r)
  end.

(** The four metrics at the head of the results, computed in the order of
    the columns: the first that raises ends the display. *)
Module Summary.
Record t := mk {
  total_competitors : Z;
  avg_rating : Q;
  total_reviews : Z;
  closest : Competitor.t
}.
End Summary.

Definition summary_metrics (competitors : list Competitor.t)
  : outcome Summary.t :=
  match avg_rating competitors with
  | Raise e => Raise e
  | Return avg =>
      match closest competitors with
      | Raise e => Raise e
      | Return nearest =>
          Return (Summary.mk (Z.of_nat (List.length competitors)) avg
                             (total_reviews competitors) nearest)
      end
  end.

(** [all_negatives], extended with the negative keywords of every
    competitor, and its [Counter]. *)
Definition all_negatives (competitors : list Competitor.t) : list string :=
  fold_left (fun acc comp => (acc ++ Competitor.negative_keywords comp)%list)
            competitors [].

Definition negative_counter (competitors : list Competitor.t) : Dict.t Z :=
  Counter (all_negatives competitors).

(** [all_themes[theme] += count] on a [Counter]: a missing key reads as 0. *)
Definition counter_add (counts : Dict.t Z) (key : string) (n : Z) : Dict.t Z :=
  Dict.set counts key (get_default (Dict.get counts key) 0 + n)%Z.

Definition all_themes (competitors : list Competitor.t) : Dict.t Z :=
  fold_left
    (fun all_themes comp =>
       fold_left
         (fun all_themes (item : string * Z) =>
            counter_add all_themes (fst item) (snd item))
         (Competitor.review_themes comp) all_themes)
    competitors [].

(** What [st.session_state] holds after a successful analysis. *)
Module Session.
Record t := mk {
  competitors : list Competitor.t;
  address : string;
  radius : Z
}.
End Session.

(** The messages of the analysis block. *)
Inductive notice :=
| please_enter_address
| error_during_analysis (e : exn)
| check_your_address
| no_competitors_found.

(** One execution of [main]: [clicked] tells whether the analyze button was
    pressed, [session] is the session state at the start.  The result is the
    session state at the end, the messages of the analysis block and, when
    the results section is reached and the session holds competitors, the
    outcome of its summary metrics.  Every [return] of the analysis block
    leaves [main] before the results section. *)
Definition main (w : World) (clicked : bool) (address : string) (radius : Z)
    (session : option Session.t)
  : option Session.t * list notice * option (outcome Summary.t) :=
  let display (session : option Session.t) :=
    match session with
    | Some stored => Some (summary_metrics (Session.competitors stored))
    | None => None
    end in
  if clicked then
    if String.eqb address "" then (session, [please_enter_address], None)
    else
      match geocode_address w address with
      | Raise e => (session, [error_during_analysis e; check_your_address], None)
      | Return origin =>
          let places := search_nearby_roofing_companies w origin radius in
          if is_nil places then (session, [no_competitors_found], None)
          else
            let competitors :=
              sort_by_distance (process_places w origin places []) in
            let session := Some (Session.mk competitors address radius) in
            (session, [], display session)
      end
  else (session, [], display session).

(** A pattern whose first atom must consume a character. *)
Definition consumes_first (re : Re.regex) : bool :=
  match re with
  | [] => false
  | it :: _ =>
      match Re.quant it with
      | Re.One | Re.Plus => true
      | Re.Opt | Re.Star => false
      end
  end.

(** A provider with complaints: two of its three stubs have reviews that
    say "late". *)
Definition slow_stub : Place.t :=
  Place.mk "slow" (Some "Slow Roofs") (2763 # 69, - 75 # 1)%Q.
Definition tardy_stub : Place.t :=
  Place.mk "tardy" (Some "Tardy Tiles") (2764 # 69, - 75 # 1)%Q.

Definition complaint_world : World :=
  {| geocode_api := fun _ => GeocodeResponse.mk "OK" scenario_origin;
     nearbysearch_api := fun _ _ =>
       last_page "OK" [slow_stub; acme_stub; tardy_stub];
     details_api := fun place_id =>
       if String.eqb place_id "slow" then
         DetailsResponse.mk "OK"
           (Details.mk (Some "Slow Roofs") None None (Some (2 # 1)%Q) (Some 4%Z) None
              (Some [Review.mk (Some "Late, late and RUDE."); Review.mk None]))
       else if String.eqb place_id "tardy" then
         DetailsResponse.mk "OK"
           (Details.mk (Some "Tardy Tiles") None None None None None
              (Some [Review.mk (Some "Always late but fast cleanup")]))
       else sample_details place_id;
     geodesic_miles := fun a b => (Qabs (fst b - fst a) * (69 # 1))%Q;
     set_order := nodup string_dec;
     set_order_spec := fun l =>
       conj (NoDup_nodup string_dec l) (fun x => nodup_In string_dec l x) |}.

(** * Properties *)

(** ** Paginated search *)

Lemma page_sequence_head (p : SearchPages) :
  page_sequence p = (page_status p, page_results p) :: tl (page_sequence p).
Proof. destruct p; reflexivity. Qed.

Lemma follow_pages_prefix (p : SearchPages) :
  forall all_results,
    follow_pages p all_results
    = (all_results
         ++ List.concat (map snd (successful_prefix (tl (page_sequence p)))))%list.
Proof.
  induction p as [s r | s r token next IH]; intros acc.
  - simpl. now rewrite app_nil_r.
  - cbn [follow_pages page_sequence tl].
    rewrite (page_sequence_head next). cbn [successful_prefix].
    destruct (is_OK (page_status next)).
    + rewrite IH. cbn [map snd List.concat]. now rewrite <- app_assoc.
    + simpl. now rewrite app_nil_r.
Qed.

(** C3. Whatever pages the search service answers, the search returns a list
    (it has no failing outcome), and that list is exactly the concatenation of
    the results of the longest prefix of pages with success status: a
    follow-up page without success ends the pagination with what was
    accumulated, and a first page without success gives the empty list. *)
Theorem search_returns_successful_prefix :
  forall (w : World) (origin : Coordinate) (radius_miles : Z),
    search_nearby_roofing_companies w origin radius_miles
    = List.concat (map snd (successful_prefix
                         (page_sequence (nearbysearch_api w origin radius_miles)))).
Proof.
  intros w origin radius. unfold search_nearby_roofing_companies.
  set (data := nearbysearch_api w origin radius).
  rewrite (page_sequence_head data). cbn [successful_prefix].
  destruct (is_OK (page_status data)); [| reflexivity].
  rewrite follow_pages_prefix. reflexivity.
Qed.

(** On the three sample pages the refused third page ends the pagination and
    the stubs of the first two pages are returned; a first page without
    success gives the empty list. *)
Example search_sample_pages :
  search_nearby_roofing_companies (sample_world sample_pages) scenario_origin 5%Z
  = [acme_stub; unrated_stub; closed_stub; overrated_stub]
  /\ search_nearby_roofing_companies
       (sample_world (page_with_token "ZERO_RESULTS" [] "t" (last_page "OK" [acme_stub])))
       scenario_origin 5%Z
     = [].
Proof. split; reflexivity. Qed.

(** ** Detail fetch and the batch loop *)

Lemma process_places_app (w : World) (origin : Coordinate) :
  forall before after competitors,
    process_places w origin (before ++ after)%list competitors
    = process_places w origin after (process_places w origin before competitors).
Proof. intros. unfold process_places. now rewrite fold_left_app. Qed.

Lemma process_places_spec (w : World) (origin : Coordinate) :
  forall places competitors,
    process_places w origin places competitors
    = (competitors
         ++ map (fun place =>
                   build_competitor w origin place
                     (get_place_details w (Place.place_id place)))
                (with_details w places))%list.
Proof.
  induction places as [| place rest IH]; intros competitors.
  - simpl. now rewrite app_nil_r.
  - unfold process_places in *. cbn [fold_left with_details filter].
    destruct (Details.is_empty (get_place_details w (Place.place_id place))).
    + cbn [negb]. apply IH.
    + cbn [negb map]. rewrite IH. now rewrite <- app_assoc.
Qed.



(** ** Pricing mentions *)

Lemma mem_In (x : string) (xs : list string) : PyStr.mem x xs = true <-> In x xs.
Proof.
  unfold PyStr.mem. rewrite existsb_exists. split.
  - intros [y [Hy Heq]]. apply String.eqb_eq in Heq. now subst.
  - intros H. exists x. split; [exact H | apply String.eqb_refl].
Qed.

Lemma mem_app (x : string) (xs ys : list string) :
  PyStr.mem x (xs ++ ys)%list = PyStr.mem x xs || PyStr.mem x ys.
Proof. apply existsb_app. Qed.

Lemma fold_add_match_flat_map {B : Type} (f : B -> list string) :
  forall (l : list B) (acc : list string),
    fold_left (fun acc b => fold_left add_match (f b) acc) l acc
    = fold_left add_match (flat_map f l) acc.
Proof.
  induction l as [| b l IH]; intros acc; simpl; [reflexivity |].
  now rewrite fold_left_app, IH.
Qed.

Lemma pricing_loop_flat (reviews : list Review.t) :
  forall pricing_info : list string,
    pricing_loop reviews pricing_info
    = fold_left add_match (all_price_matches reviews) pricing_info.
Proof.
  induction reviews as [| review rest IH]; intros acc; [reflexivity |].
  unfold pricing_loop, all_price_matches in *.
  cbn [fold_left flat_map].
  rewrite fold_left_app, IH. f_equal.
  apply fold_add_match_flat_map.
Qed.

Lemma first_seen_In (l : list string) (x : string) :
  In x (first_seen l) <-> In x l.
Proof.
  induction l as [| y r IH]; simpl; [tauto |].
  split.
  - intros [H | H]; [now left |].
    apply in_remove in H. right. now apply IH.
  - intros [H | H]; [now left |].
    destruct (string_dec x y) as [-> | Hne]; [now left |].
    right. apply in_in_remove; [exact Hne | now apply IH].
Qed.

Lemma NoDup_remove_elt (x : string) (l : list string) :
  NoDup l -> NoDup (remove string_dec x l).
Proof.
  induction 1 as [| y r Hy Hr IH]; simpl; [constructor |].
  destruct (string_dec x y); [exact IH |].
  constructor; [| exact IH].
  intros H. apply in_remove in H. tauto.
Qed.

Lemma first_seen_NoDup (l : list string) : NoDup (first_seen l).
Proof.
  induction l as [| x r IH]; simpl; constructor.
  - apply remove_In.
  - now apply NoDup_remove_elt.
Qed.

Lemma first_seen_remove (x : string) (l : list string) :
  remove string_dec x (first_seen l) = first_seen (remove string_dec x l).
Proof.
  induction l as [| y r IH]; [reflexivity |].
  cbn [first_seen remove].
  destruct (string_dec x y) as [-> | Hne].
  - now rewrite remove_remove_eq.
  - cbn [first_seen]. now rewrite remove_remove_comm, IH.
Qed.

Lemma filter_unseen_snoc (acc : list string) (x : string) (l : list string) :
  filter (fun y => negb (PyStr.mem y (acc ++ [x])%list)) l
  = remove string_dec x (filter (fun y => negb (PyStr.mem y acc)) l).
Proof.
  induction l as [| y r IH]; [reflexivity |].
  cbn [filter]. rewrite mem_app.
  destruct (PyStr.mem y acc) eqn:Hacc; cbn [orb negb]; [exact IH |].
  cbn [PyStr.mem existsb remove]. rewrite orb_false_r.
  destruct (string_dec x y) as [-> | Hne].
  - rewrite String.eqb_refl. exact IH.
  - destruct (String.eqb_spec y x) as [-> | _]; [congruence |].
    cbn [negb]. now rewrite IH.
Qed.

Lemma fold_add_match_spec :
  forall (l acc : list string),
    fold_left add_match l acc
    = (acc ++ first_seen (filter (fun y => negb (PyStr.mem y acc)) l))%list.
Proof.
  induction l as [| x r IH]; intros acc.
  - simpl. now rewrite app_nil_r.
  - cbn [fold_left filter]. unfold add_match at 2.
    destruct (PyStr.mem x acc) eqn:Hx; cbn [negb].
    + apply IH.
    + rewrite IH, filter_unseen_snoc, <- first_seen_remove, <- app_assoc.
      reflexivity.
Qed.

Lemma filter_none {A : Type} (f : A -> bool) (l : list A) :
  (forall x, In x l -> f x = false) -> filter f l = [].
Proof.
  induction l as [| x r IH]; intros H; [reflexivity |].
  simpl. rewrite (H x (or_introl eq_refl)). apply IH.
  intros y Hy. apply H. now right.
Qed.

Lemma filter_all {A : Type} (f : A -> bool) (l : list A) :
  (forall x, In x l -> f x = true) -> filter f l = l.
Proof.
  induction l as [| x r IH]; intros H; [reflexivity |].
  simpl. rewrite (H x (or_introl eq_refl)). f_equal. apply IH.
  intros y Hy. apply H. now right.
Qed.

(** C7. The pricing mentions of a list of reviews have no duplicate; they
    are the matches of all patterns in the lower-cased text of each review
    taken by itself, listed in the order of their first occurrence; and the
    extraction is idempotent: running the loop again over the same reviews,
    from the list already obtained, leaves that list as it is. *)
Theorem extract_pricing_first_seen_idempotent :
  forall reviews : list Review.t,
    NoDup (extract_pricing_from_reviews reviews)
    /\ extract_pricing_from_reviews reviews
       = first_seen (all_price_matches reviews)
    /\ pricing_loop reviews (extract_pricing_from_reviews reviews)
       = extract_pricing_from_reviews reviews.
Proof.
  intros reviews.
  assert (Hspec : extract_pricing_from_reviews reviews
                  = first_seen (all_price_matches reviews)).
  { unfold extract_pricing_from_reviews.
    rewrite pricing_loop_flat, fold_add_match_spec. cbn [app].
    now rewrite filter_all. }
  split; [rewrite Hspec; apply first_seen_NoDup |].
  split; [exact Hspec |].
  rewrite pricing_loop_flat, fold_add_match_spec, filter_none.
  - cbn [first_seen]. apply app_nil_r.
  - intros x Hx. apply negb_false_iff, mem_In.
    rewrite Hspec. now apply first_seen_In.
Qed.

(** ** Themes and sentiment keywords *)

Lemma distinct_NoDup (l : list string) : distinct l = true -> NoDup l.
Proof.
  induction l as [| x r IH]; simpl; intros H; constructor;
    apply andb_true_iff in H; destruct H as [Hx Hr].
  - intros Hin. apply mem_In in Hin. rewrite Hin in Hx. discriminate.
  - now apply IH.
Qed.

Lemma opportunity_themes_distinct : NoDup (Dict.keys opportunity_keywords).
Proof. apply distinct_NoDup. vm_compute. reflexivity. Qed.

Lemma positive_indicators_distinct : NoDup positive_indicators.
Proof. apply distinct_NoDup. vm_compute. reflexivity. Qed.

Lemma negative_indicators_distinct : NoDup negative_indicators.
Proof. apply distinct_NoDup. vm_compute. reflexivity. Qed.

Lemma dict_get_set {V : Type} (d : Dict.t V) (k k' : string) (v : V) :
  Dict.get (Dict.set d k v) k'
  = if String.eqb k' k then Some v else Dict.get d k'.
Proof.
  induction d as [| [k0 v0] r IH]; simpl.
  - reflexivity.
  - destruct (String.eqb_spec k k0) as [-> | Hk]; simpl.
    + destruct (String.eqb_spec k' k0); reflexivity.
    + rewrite IH. destruct (String.eqb_spec k' k0) as [-> | Hk'].
      * destruct (String.eqb_spec k0 k); [congruence | reflexivity].
      * reflexivity.
Qed.

Lemma dict_get_absent {V : Type} (d : Dict.t V) (k : string) :
  ~ In k (Dict.keys d) -> Dict.get d k = None.
Proof.
  induction d as [| [k0 v0] r IH]; simpl; intros H; [reflexivity |].
  destruct (String.eqb_spec k k0) as [-> | _]; [tauto |].
  apply IH. tauto.
Qed.

Lemma dict_get_In {V : Type} (d : Dict.t V) (k : string) (v : V) :
  NoDup (Dict.keys d) -> In (k, v) d -> Dict.get d k = Some v.
Proof.
  induction d as [| [k0 v0] r IH]; simpl; intros Hnd Hin; [tauto |].
  inversion Hnd as [| ? ? Hk0 Hr]; subst.
  destruct Hin as [Heq | Hin].
  - inversion Heq; subst. now rewrite String.eqb_refl.
  - destruct (String.eqb_spec k k0) as [-> | _].
    + exfalso. apply Hk0. change (In (fst (k0, v)) (map fst r)).
      now apply in_map.
    + now apply IH.
Qed.

Lemma dict_In_set {V : Type} (d : Dict.t V) (k : string) (v : V) (e : string * V) :
  In e (Dict.set d k v) -> In e d \/ snd e = v.
Proof.
  induction d as [| [k0 v0] r IH]; simpl.
  - intros [<- | []]. now right.
  - destruct (String.eqb k k0); simpl.
    + intros [<- | H]; [now right | left; now right].
    + intros [<- | H]; [left; now left |].
      destruct (IH H); [left; now right | now right].
Qed.

Lemma themes_loop_get (all_text : string) :
  forall (vocabulary : list (string * list string)) (themes : Dict.t Z)
         (theme : string),
    NoDup (Dict.keys vocabulary) ->
    Dict.get (themes_loop all_text vocabulary themes) theme
    = match Dict.get vocabulary theme with
      | Some keywords =>
          if (0 <? theme_count all_text keywords)%Z
          then Some (theme_count all_text keywords)
          else Dict.get themes theme
      | None => Dict.get themes theme
      end.
Proof.
  induction vocabulary as [| [th kws] r IH]; intros themes theme Hnd.
  - reflexivity.
  - inversion Hnd as [| ? ? Hth Hr]; subst.
    unfold themes_loop in *. cbn [fold_left Dict.get].
    rewrite (IH _ theme Hr).
    destruct (String.eqb_spec theme th) as [-> | Hne].
    + rewrite (dict_get_absent r th Hth).
      destruct (0 <? theme_count all_text kws)%Z; [| reflexivity].
      now rewrite dict_get_set, String.eqb_refl.
    + assert (Hsame :
        Dict.get (if (0 <? theme_count all_text kws)%Z
                  then Dict.set themes th (theme_count all_text kws)
                  else themes) theme
        = Dict.get themes theme).
      { destruct (0 <? theme_count all_text kws)%Z; [| reflexivity].
        rewrite dict_get_set.
        destruct (String.eqb_spec theme th); [congruence | reflexivity]. }
      rewrite Hsame. reflexivity.
Qed.

Lemma themes_loop_positive (all_text : string) :
  forall (vocabulary : list (string * list string)) (themes : Dict.t Z),
    Forall (fun entry => (0 < snd entry)%Z) themes ->
    Forall (fun entry => (0 < snd entry)%Z)
           (themes_loop all_text vocabulary themes).
Proof.
  induction vocabulary as [| [th kws] r IH]; intros themes Hpos; [exact Hpos |].
  unfold themes_loop in *. cbn [fold_left]. apply IH.
  destruct (0 <? theme_count all_text kws)%Z eqn:Hc; [| exact Hpos].
  apply Z.ltb_lt in Hc. apply Forall_forall. intros e He.
  destruct (dict_In_set _ _ _ _ He) as [Hin | Hv].
  - now apply (proj1 (Forall_forall _ _) Hpos).
  - now rewrite Hv.
Qed.

Lemma dict_get_Some_In {V : Type} (d : Dict.t V) (k : string) (v : V) :
  Dict.get d k = Some v -> In (k, v) d.
Proof.
  induction d as [| [k0 v0] r IH]; simpl; [discriminate |].
  destruct (String.eqb_spec k k0) as [-> | _].
  - intros H. inversion H. now left.
  - intros H. right. now apply IH.
Qed.

Lemma string_app_assoc (a b c : string) : (a ++ b) ++ c = a ++ (b ++ c).
Proof. induction a as [| x a IH]; simpl; [reflexivity | now rewrite IH]. Qed.

Lemma string_app_nil_r (a : string) : a ++ "" = a.
Proof. induction a as [| x a IH]; simpl; [reflexivity | now rewrite IH]. Qed.

Lemma startswith_iff (p : string) :
  forall s, PyStr.startswith s p = true <-> exists post, s = p ++ post.
Proof.
  induction p as [| a p IH]; intros s.
  - destruct s; simpl; split; try reflexivity; intros _; eexists; reflexivity.
  - destruct s as [| b s]; simpl.
    + split; [discriminate | intros [post H]; discriminate].
    + rewrite andb_true_iff, Ascii.eqb_eq, IH. split.
      * intros [-> [post ->]]. now exists post.
      * intros [post H]. inversion H; subst. split; [reflexivity | now exists post].
Qed.

Lemma contains_iff (sub : string) :
  forall s,
    PyStr.contains s sub = true <-> exists pre post, s = pre ++ sub ++ post.
Proof.
  induction s as [| c s IH].
  - cbn [PyStr.contains]. rewrite orb_false_r, startswith_iff. split.
    + intros [post H]. exists "", post. exact H.
    + intros [pre [post H]]. destruct pre as [| x pre]; [| discriminate].
      now exists post.
  - cbn [PyStr.contains]. rewrite orb_true_iff, startswith_iff, IH. split.
    + intros [[post H] | [pre [post H]]].
      * exists "", post. exact H.
      * exists (String c pre), post. simpl. now rewrite H.
    + intros [pre [post H]]. destruct pre as [| x pre].
      * left. now exists post.
      * right. simpl in H. inversion H; subst. now exists pre, post.
Qed.

Lemma count_from_nonneg (sub : string) :
  forall s skip, (0 <= PyStr.count_from skip s sub)%Z.
Proof.
  induction s as [| c r IH]; intros skip; cbn [PyStr.count_from].
  - destruct skip; [destruct (PyStr.startswith "" sub) |]; lia.
  - destruct skip as [| k]; [| apply IH].
    destruct (PyStr.startswith (String c r) sub); [| apply IH].
    specialize (IH (String.length sub - 1)). lia.
Qed.

Lemma count_from_pos_contains (sub : string) :
  forall s skip,
    (0 < PyStr.count_from skip s sub)%Z -> PyStr.contains s sub = true.
Proof.
  induction s as [| c r IH]; intros skip; cbn [PyStr.count_from PyStr.contains].
  - destruct skip; [| lia]. destruct (PyStr.startswith "" sub); [reflexivity | lia].
  - destruct skip as [| k].
    + destruct (PyStr.startswith (String c r) sub); [reflexivity |].
      intros H. rewrite (IH _ H). apply orb_true_r.
    + intros H. rewrite (IH _ H). apply orb_true_r.
Qed.

Lemma contains_count_pos (sub : string) :
  forall s, PyStr.contains s sub = true -> (0 < PyStr.count s sub)%Z.
Proof.
  unfold PyStr.count.
  induction s as [| c r IH]; cbn [PyStr.count_from PyStr.contains].
  - rewrite orb_false_r. intros ->. lia.
  - destruct (PyStr.startswith (String c r) sub).
    + intros _. pose proof (count_from_nonneg sub r (String.length sub - 1)). lia.
    + cbn [orb]. exact IH.
Qed.

Lemma lower_app (a b : string) :
  PyStr.lower (a ++ b) = PyStr.lower a ++ PyStr.lower b.
Proof. induction a as [| c a IH]; simpl; [reflexivity | now rewrite IH]. Qed.

Lemma lower_join (sep : string) (parts : list string) :
  PyStr.lower (PyStr.join sep parts)
  = PyStr.join (PyStr.lower sep) (map PyStr.lower parts).
Proof.
  induction parts as [| p r IH]; [reflexivity |].
  destruct r as [| q r]; [reflexivity |].
  change (PyStr.join sep (p :: q :: r)) with (p ++ sep ++ PyStr.join sep (q :: r)).
  rewrite !lower_app, IH. reflexivity.
Qed.

Lemma review_blob_lower (reviews : list Review.t) :
  review_blob reviews = PyStr.lower (PyStr.join " " (map review_text reviews)).
Proof. unfold review_blob. now rewrite lower_join, map_map. Qed.

Lemma count_from_skip (sub : string) :
  forall a rest,
    PyStr.count_from (String.length a) (a ++ rest) sub
    = PyStr.count_from 0 rest sub.
Proof.
  induction a as [| c a IH]; intros rest; [reflexivity |].
  cbn [String.length append PyStr.count_from]. apply IH.
Qed.

Lemma count_zero_iff (s sub : string) :
  PyStr.count s sub = 0%Z <-> ~ exists pre post, s = pre ++ sub ++ post.
Proof.
  split.
  - intros Hzero Hocc. apply contains_iff, contains_count_pos in Hocc. lia.
  - intros Hnone.
    pose proof (count_from_nonneg sub s 0) as Hge. fold (PyStr.count s sub) in Hge.
    destruct (Z.eq_dec (PyStr.count s sub) 0) as [Hz | Hnz]; [exact Hz |].
    exfalso. apply Hnone, contains_iff.
    apply (count_from_pos_contains sub s 0). fold (PyStr.count s sub). lia.
Qed.

Lemma count_after_leftmost (pre sub rest : string) :
  sub <> "" ->
  (forall a b, pre ++ sub ++ rest = a ++ sub ++ b ->
               String.length pre <= String.length a) ->
  PyStr.count (pre ++ sub ++ rest) sub = (1 + PyStr.count rest sub)%Z.
Proof.
  unfold PyStr.count. intros Hsub.
  induction pre as [| c pre IH]; intros Hleft.
  - destruct sub as [| x sub']; [congruence |].
    change ("" ++ String x sub' ++ rest) with (String x (sub' ++ rest)).
    cbn [PyStr.count_from].
    assert (Hs : PyStr.startswith (String x (sub' ++ rest)) (String x sub') = true).
    { apply startswith_iff. now exists rest. }
    rewrite Hs. f_equal. cbn [String.length].
    rewrite Nat.sub_succ, Nat.sub_0_r. apply count_from_skip.
  - change (String c pre ++ sub ++ rest) with (String c (pre ++ sub ++ rest)).
    cbn [PyStr.count_from].
    destruct (PyStr.startswith (String c (pre ++ sub ++ rest)) sub) eqn:Hs.
    + apply startswith_iff in Hs. destruct Hs as [b Hb].
      specialize (Hleft "" b Hb). cbn [String.length] in Hleft. lia.
    + apply IH. intros a b Hab.
      specialize (Hleft (String c a) b). cbn [append String.length] in Hleft.
      rewrite Hab in Hleft. specialize (Hleft eq_refl). lia.
Qed.

Lemma theme_count_fold (all_text : string) (keywords : list string) :
  theme_count all_text keywords
  = fold_right (fun keyword total => (PyStr.count all_text keyword + total)%Z)
               0%Z keywords.
Proof.
  unfold theme_count, Zsum.
  assert (Hacc : forall (l : list Z) a b,
             fold_left Z.add l (a + b)%Z = (a + fold_left Z.add l b)%Z).
  { induction l as [| y l IHl]; intros a b; cbn [fold_left]; [reflexivity |].
    rewrite <- IHl. f_equal. lia. }
  induction keywords as [| k r IH]; [reflexivity |].
  cbn [map fold_right fold_left]. rewrite <- IH, <- Hacc. f_equal. lia.
Qed.

(** C4. In the theme mapping of a list of reviews, every theme of the
    vocabulary whose trigger phrases have a positive total of occurrences in
    the lower-cased, space-joined review text is mapped to that total, and a
    theme whose total is not positive has no entry; no entry has a count of
    0 or less, and every entry is a theme of the vocabulary.  The text is the
    lower-cased join of all review texts, and the total of a theme adds the
    counts of its phrases.  The count of a phrase is its number of
    occurrences, not its presence: it is 0 exactly when the phrase does not
    occur, and otherwise 1 more than its count in what follows the leftmost
    occurrence.  Occurrences of a phrase inside a longer phrase of the same
    theme count twice: the text "Great cleanup" gives the theme cleanup the
    count 2, one for "clean" and one for "cleanup"; and the reviews
    "FAST, fast and Quick.", a review without text and
    "Not fast. CLEANUP was clean" give speed the count 4 and cleanup the
    count 3. *)
Theorem review_themes_sum_of_counts :
  forall reviews : list Review.t,
    let themes := snd (analyze_review_keywords reviews) in
    let all_text := review_blob reviews in
    (forall theme keywords,
        In (theme, keywords) opportunity_keywords ->
        Dict.get themes theme
        = if (0 <? theme_count all_text keywords)%Z
          then Some (theme_count all_text keywords)
          else None)
    /\ (forall theme count,
           Dict.get themes theme = Some count ->
           (0 < count)%Z
           /\ exists keywords,
                In (theme, keywords) opportunity_keywords
                /\ count = theme_count all_text keywords)
    /\ (forall theme count, In (theme, count) themes -> (0 < count)%Z)
    /\ snd (analyze_review_keywords [Review.mk (Some "Great cleanup")])
       = [("cleanup", 2%Z)]
    /\ all_text = PyStr.lower (PyStr.join " " (map review_text reviews))
    /\ (forall keywords,
           theme_count all_text keywords
           = fold_right
               (fun keyword total => (PyStr.count all_text keyword + total)%Z)
               0%Z keywords)
    /\ (forall text keyword,
           PyStr.count text keyword = 0%Z
           <-> ~ exists pre post, text = pre ++ keyword ++ post)
    /\ (forall pre keyword rest,
           keyword <> "" ->
           (forall a b, pre ++ keyword ++ rest = a ++ keyword ++ b ->
                        String.length pre <= String.length a) ->
           PyStr.count (pre ++ keyword ++ rest) keyword
           = (1 + PyStr.count rest keyword)%Z)
    /\ snd (analyze_review_keywords
              [Review.mk (Some "FAST, fast and Quick."); Review.mk None;
               Review.mk (Some "Not fast. CLEANUP was clean")])
       = [("speed", 4%Z); ("cleanup", 3%Z)].
Proof.
  intros reviews themes all_text.
  assert (Hget : forall theme,
             Dict.get themes theme
             = match Dict.get opportunity_keywords theme with
               | Some keywords =>
                   if (0 <? theme_count all_text keywords)%Z
                   then Some (theme_count all_text keywords)
                   else None
               | None => None
               end).
  { intros theme. unfold themes, analyze_review_keywords. cbn [snd].
    now rewrite (themes_loop_get _ _ _ _ opportunity_themes_distinct). }
  assert (Hpos : forall theme count, In (theme, count) themes -> (0 < count)%Z).
  { intros theme count Hin.
    assert (H : Forall (fun entry => (0 < snd entry)%Z) themes).
    { unfold themes, analyze_review_keywords. cbn [snd].
      apply themes_loop_positive. constructor. }
    exact (proj1 (Forall_forall _ _) H (theme, count) Hin). }
  split; [| split; [| split; [| split; [| split; [| split; [| split; [| split]]]]]]].
  - intros theme keywords Hin. rewrite Hget.
    now rewrite (dict_get_In _ _ _ opportunity_themes_distinct Hin).
  - intros theme count Hsome. split.
    + apply (Hpos theme). now apply dict_get_Some_In.
    + rewrite Hget in Hsome.
      destruct (Dict.get opportunity_keywords theme) as [keywords |] eqn:Hv;
        [| discriminate].
      exists keywords. split; [now apply dict_get_Some_In |].
      destruct (0 <? theme_count all_text keywords)%Z; [| discriminate].
      now inversion Hsome.
  - exact Hpos.
  - vm_compute. reflexivity.
  - apply review_blob_lower.
  - apply theme_count_fold.
  - intros text keyword. apply count_zero_iff.
  - intros pre keyword rest. apply count_after_leftmost.
  - vm_compute. reflexivity.
Qed.

Lemma review_themes_sum_of_counts_witness :
  let themes :=
    snd (analyze_review_keywords
           [Review.mk (Some "FAST, fast and Quick."); Review.mk None;
            Review.mk (Some "Not fast. CLEANUP was clean")]) in
  Dict.get themes "speed" = Some 4%Z
  /\ Dict.get themes "estimate" = None
  /\ (0 < 4)%Z.
Proof.
  destruct (review_themes_sum_of_counts
              [Review.mk (Some "FAST, fast and Quick."); Review.mk None;
               Review.mk (Some "Not fast. CLEANUP was clean")])
    as [Hget [Hsome _]].
  split; [| split].
  - exact (Hget "speed" _ (or_introl eq_refl)).
  - refine (Hget "estimate"
              ["free estimate"; "accurate estimate"; "detailed quote"; "overestimate"]
              _).
    repeat (first [left; reflexivity | right]).
  - exact (proj1 (Hsome "speed" 4%Z eq_refl)).
Defined.

Lemma before_in_cons (x : string) (vocabulary : list string) (a b : string) :
  before_in vocabulary a b -> before_in (x :: vocabulary) a b.
Proof.
  intros [i [j [Hi [Hj Hlt]]]]. exists (S i), (S j).
  repeat split; [exact Hi | exact Hj | lia].
Qed.

Lemma before_in_head (x : string) (vocabulary : list string) (b : string) :
  In b vocabulary -> before_in (x :: vocabulary) x b.
Proof.
  intros Hb. apply In_nth_error in Hb. destruct Hb as [j Hj].
  exists 0, (S j). repeat split; [exact Hj | lia].
Qed.

Lemma StronglySorted_weaken {A : Type} (R R' : A -> A -> Prop) (l : list A) :
  (forall a b, R a b -> R' a b) -> StronglySorted R l -> StronglySorted R' l.
Proof.
  intros Hsub. induction 1 as [| a l Hl IH Ha]; constructor.
  - exact IH.
  - apply Forall_forall. intros b Hb. apply Hsub.
    exact (proj1 (Forall_forall _ _) Ha b Hb).
Qed.

Lemma filter_keeps_vocabulary_order (f : string -> bool) :
  forall vocabulary : list string,
    StronglySorted (before_in vocabulary) (filter f vocabulary).
Proof.
  induction vocabulary as [| x v IH]; [constructor |].
  assert (Hrest : StronglySorted (before_in (x :: v)) (filter f v)).
  { apply (StronglySorted_weaken (before_in v)); [| exact IH].
    intros a b. apply before_in_cons. }
  cbn [filter]. destruct (f x); [| exact Hrest].
  constructor; [exact Hrest |].
  apply Forall_forall. intros b Hb. apply before_in_head.
  apply filter_In in Hb. tauto.
Qed.

(** C10. The positive and the negative keywords of a list of reviews have no
    duplicate; each list holds exactly the indicator phrases that occur in the
    review text, and lists them in the order in which the phrases stand in the
    hard-coded vocabulary.  The "Top Complaints" cell of a competitor is the
    first three negative keywords in that order ("None" when there is none):
    for "Scam, scam, scam! Rude and late, poor work" it is "rude; late; poor",
    although "scam" comes first in the text and is the most frequent. *)
Theorem sentiment_keywords_in_vocabulary_order :
  forall reviews : list Review.t,
    let positive := fst (fst (analyze_review_keywords reviews)) in
    let negative := snd (fst (analyze_review_keywords reviews)) in
    let all_text := review_blob reviews in
    NoDup positive /\ NoDup negative
    /\ StronglySorted (before_in positive_indicators) positive
    /\ StronglySorted (before_in negative_indicators) negative
    /\ (forall k, In k positive
                  <-> In k positive_indicators /\ PyStr.contains all_text k = true)
    /\ (forall k, In k negative
                  <-> In k negative_indicators /\ PyStr.contains all_text k = true)
    /\ (forall w origin place details,
           Details.reviews details = Some reviews ->
           Row.Top_Complaints
             (dataframe_row (build_competitor w origin place details))
           = if is_nil negative then "None"
             else PyStr.join "; " (firstn 3 negative))
    /\ (let example :=
          snd (fst (analyze_review_keywords
                      [Review.mk (Some "Scam, scam, scam! Rude and late, poor work")])) in
        example = ["rude"; "late"; "poor"; "scam"]
        /\ PyStr.join "; " (firstn 3 example) = "rude; late; poor").
Proof.
  intros reviews positive negative all_text.
  unfold positive, negative, analyze_review_keywords. cbn [fst snd].
  fold all_text.
  repeat split.
  - apply NoDup_filter, positive_indicators_distinct.
  - apply NoDup_filter, negative_indicators_distinct.
  - apply filter_keeps_vocabulary_order.
  - apply filter_keeps_vocabulary_order.
  - apply filter_In in H. tauto.
  - apply filter_In in H. tauto.
  - intros [H1 H2]. apply filter_In. tauto.
  - apply filter_In in H. tauto.
  - apply filter_In in H. tauto.
  - intros [H1 H2]. apply filter_In. tauto.
  - intros w origin place details Hreviews.
    unfold build_competitor, dataframe_row. rewrite Hreviews.
    cbn [get_default]. unfold analyze_review_keywords.
    cbn [Row.Top_Complaints Competitor.negative_keywords].
    fold all_text. reflexivity.
Qed.

Lemma sentiment_keywords_in_vocabulary_order_witness :
  In "professional" positive_indicators
  /\ Row.Top_Complaints
       (dataframe_row
          (build_competitor scenario_world scenario_origin acme_stub
             scenario_details))
     = "None".
Proof.
  destruct (sentiment_keywords_in_vocabulary_order
              [Review.mk (Some scenario_review_text)])
    as [_ [_ [_ [_ [Hpos [_ [Hrow _]]]]]]].
  split.
  - apply (proj1 (Hpos "professional")). simpl. tauto.
  - exact (Hrow scenario_world scenario_origin acme_stub scenario_details
             eq_refl).
Defined.

(** ** Sorting by distance *)

Lemma insert_by_distance_In (c x : Competitor.t) (l : list Competitor.t) :
  In x (insert_by_distance c l) <-> x = c \/ In x l.
Proof.
  induction l as [| d r IH]; simpl.
  - intuition congruence.
  - destruct (Qle_bool (Competitor.distance_miles c) (Competitor.distance_miles d));
      simpl; [intuition congruence |].
    rewrite IH. intuition congruence.
Qed.

Lemma insert_by_distance_perm (c : Competitor.t) (l : list Competitor.t) :
  Permutation (c :: l) (insert_by_distance c l).
Proof.
  induction l as [| d r IH]; simpl; [reflexivity |].
  destruct (Qle_bool (Competitor.distance_miles c) (Competitor.distance_miles d));
    [reflexivity |].
  rewrite perm_swap. now constructor.
Qed.

Lemma sort_by_distance_perm (l : list Competitor.t) :
  Permutation l (sort_by_distance l).
Proof.
  induction l as [| c r IH]; simpl; [constructor |].
  rewrite <- insert_by_distance_perm. now constructor.
Qed.

Lemma insert_by_distance_sorted (c : Competitor.t) (l : list Competitor.t) :
  StronglySorted distance_le l ->
  StronglySorted distance_le (insert_by_distance c l).
Proof.
  induction 1 as [| d r Hr IH Hd]; simpl.
  - repeat constructor.
  - destruct (Qle_bool (Competitor.distance_miles c) (Competitor.distance_miles d))
      eqn:Hle.
    + apply Qle_bool_iff in Hle.
      constructor; [now constructor |].
      constructor; [exact Hle |].
      apply Forall_forall. intros x Hx. unfold distance_le in *.
      apply Qle_trans with (Competitor.distance_miles d); [exact Hle |].
      exact (proj1 (Forall_forall _ _) Hd x Hx).
    + constructor; [exact IH |].
      apply Forall_forall. intros x Hx.
      apply insert_by_distance_In in Hx. destruct Hx as [-> | Hx].
      * unfold distance_le.
        destruct (Qlt_le_dec (Competitor.distance_miles d) (Competitor.distance_miles c))
          as [Hlt | Hge].
        -- now apply Qlt_le_weak.
        -- apply Qle_bool_iff in Hge. congruence.
      * exact (proj1 (Forall_forall _ _) Hd x Hx).
Qed.

Lemma sort_by_distance_sorted (l : list Competitor.t) :
  StronglySorted distance_le (sort_by_distance l).
Proof.
  induction l as [| c r IH]; simpl; [constructor |].
  now apply insert_by_distance_sorted.
Qed.

Lemma insert_by_distance_at_distance (d : Q) (c : Competitor.t) :
  forall l : list Competitor.t,
    at_distance d (insert_by_distance c l) = at_distance d (c :: l).
Proof.
  induction l as [| x r IH]; [reflexivity |].
  cbn [insert_by_distance].
  destruct (Qle_bool (Competitor.distance_miles c) (Competitor.distance_miles x))
    eqn:Hle; [reflexivity |].
  unfold at_distance in *. cbn [filter] in *. rewrite IH.
  destruct (Qeq_bool (Competitor.distance_miles c) d) eqn:Hc; [| reflexivity].
  destruct (Qeq_bool (Competitor.distance_miles x) d) eqn:Hx; [| reflexivity].
  exfalso.
  apply Qeq_bool_iff in Hc, Hx.
  assert (Hcx : (Competitor.distance_miles c <= Competitor.distance_miles x)%Q).
  { rewrite Hc, Hx. apply Qle_refl. }
  apply Qle_bool_iff in Hcx. congruence.
Qed.

Lemma sort_by_distance_stable (d : Q) (l : list Competitor.t) :
  at_distance d (sort_by_distance l) = at_distance d l.
Proof.
  induction l as [| c r IH]; [reflexivity |].
  cbn [sort_by_distance]. rewrite insert_by_distance_at_distance.
  unfold at_distance in *. cbn [filter]. now rewrite IH.
Qed.

(** C8. When a run returns a competitor list, that list is in ascending order
    of distance, it holds the competitors that the run built and no other,
    and the sort is stable: for every distance, the competitors at that
    distance stand in the returned list in the order in which they were
    discovered. *)
Theorem analyze_competitors_sorted_stable :
  forall (w : World) (your_address : string) (radius_miles : Z)
         (competitors : list Competitor.t),
    analyze_competitors w your_address radius_miles = Return competitors ->
    exists discovered,
      discover_competitors w your_address radius_miles = Return discovered
      /\ StronglySorted distance_le competitors
      /\ Permutation discovered competitors
      /\ forall d : Q, at_distance d competitors = at_distance d discovered.
Proof.
  intros w your_address radius_miles competitors Hrun.
  unfold analyze_competitors in Hrun.
  destruct (discover_competitors w your_address radius_miles) as [discovered | e];
    [| discriminate].
  inversion Hrun; subst. exists discovered.
  split; [reflexivity |]. split; [apply sort_by_distance_sorted |].
  split; [apply sort_by_distance_perm |].
  intros d. apply sort_by_distance_stable.
Qed.

Lemma analyze_competitors_sorted_stable_witness :
  exists competitors,
    analyze_competitors (sample_world sample_pages) "12 Main St" 5%Z
    = Return competitors
    /\ exists discovered,
         discover_competitors (sample_world sample_pages) "12 Main St" 5%Z
         = Return discovered
         /\ StronglySorted distance_le competitors
         /\ Permutation discovered competitors
         /\ forall d : Q, at_distance d competitors = at_distance d discovered.
Proof.
  eexists. split; [reflexivity |].
  apply (analyze_competitors_sorted_stable (sample_world sample_pages)
           "12 Main St" 5%Z).
  reflexivity.
Defined.

(** ** Ratings *)

Lemma analyze_competitors_members
    (w : World) (your_address : string) (radius_miles : Z)
    (competitors : list Competitor.t) (c : Competitor.t) :
  analyze_competitors w your_address radius_miles = Return competitors ->
  In c competitors ->
  exists origin place,
    geocode_address w your_address = Return origin
    /\ In place (search_nearby_roofing_companies w origin radius_miles)
    /\ Details.is_empty (get_place_details w (Place.place_id place)) = false
    /\ c = build_competitor w origin place
             (get_place_details w (Place.place_id place)).
Proof.
  intros Hrun Hc. unfold analyze_competitors, discover_competitors in Hrun.
  destruct (geocode_address w your_address) as [origin | e]; [| discriminate].
  inversion Hrun; subst. clear Hrun.
  apply (Permutation_in _ (Permutation_sym (sort_by_distance_perm _))) in Hc.
  rewrite process_places_spec in Hc. cbn [app] in Hc.
  apply in_map_iff in Hc. destruct Hc as [place [Hbuild Hplace]].
  apply filter_In in Hplace. destruct Hplace as [Hin Hfull].
  exists origin, place. repeat split; try assumption.
  - now apply negb_true_iff.
  - now symmetry.
Qed.



(** ** The end-to-end scenario *)

Lemma round2_of_2 (d : Q) : (d == 2)%Q -> (round2 d == 2)%Q.
Proof.
  intros Hd. unfold round2, round_half_even.
  assert (Hfloor : Qfloor (d * 100) = 200%Z).
  { rewrite Hd. reflexivity. }
  rewrite Hfloor.
  assert (Hcmp : Qcompare (2 * (d * 100 - inject_Z 200))%Q 1%Q = Lt).
  { rewrite Hd. reflexivity. }
  rewrite Hcmp. reflexivity.
Qed.

Lemma scenario_text_mining :
  extract_pricing_from_reviews [Review.mk (Some scenario_review_text)]
  = ["$8,500"; "quote was $8,500"]
  /\ analyze_review_keywords [Review.mk (Some scenario_review_text)]
     = (["professional"], [], [("speed", 1%Z); ("quality", 1%Z)]).
Proof. split; vm_compute; reflexivity. Qed.

(** C2, as stated, fails: in the scenario the pricing mentions are not the
    one-element list of "$8,500", and the themes have no entry for
    estimate. *)
Lemma scenario_claim_fails :
  ~ (exists c,
        analyze_competitors scenario_world "12 Main St" 5%Z = Return [c]
        /\ (Competitor.distance_miles c == 2)%Q
        /\ Competitor.pricing_info c = ["$8,500"]
        /\ In "professional" (Competitor.positive_keywords c)
        /\ (exists n, Dict.get (Competitor.review_themes c) "speed" = Some n
                      /\ (1 <= n)%Z)
        /\ (exists n, Dict.get (Competitor.review_themes c) "estimate" = Some n
                      /\ (1 <= n)%Z)).
Proof.
  intros [c [Hrun [_ [Hpricing _]]]].
  vm_compute in Hrun. inversion Hrun; subst c.
  cbn in Hpricing. discriminate Hpricing.
Qed.

(** C2, amended. When the origin geocodes to (40.0, -75.0) and the search
    returns one stub, 2.0 miles away, whose details hold the single review
    "The roof repair was fast, the crew was professional, and the quote was
    $8,500.", the run returns one competitor with the distance 2.0, the
    pricing mentions "$8,500" and "quote was $8,500" in this order, the
    positive keyword "professional", and the themes speed and quality with
    the count 1 each; the themes have no entry for estimate, of which no
    trigger phrase occurs in the text. *)
Theorem scenario_competitor :
  forall (w : World) (your_address : string) (radius_miles : Z)
         (stub : Place.t) (details : Details.t),
    geocode_address w your_address = Return scenario_origin ->
    search_nearby_roofing_companies w scenario_origin radius_miles = [stub] ->
    (geodesic_miles w scenario_origin (Place.location stub) == 2)%Q ->
    get_place_details w (Place.place_id stub) = details ->
    Details.reviews details = Some [Review.mk (Some scenario_review_text)] ->
    exists c,
      analyze_competitors w your_address radius_miles = Return [c]
      /\ (Competitor.distance_miles c == 2)%Q
      /\ Competitor.pricing_info c = ["$8,500"; "quote was $8,500"]
      /\ In "professional" (Competitor.positive_keywords c)
      /\ Dict.get (Competitor.review_themes c) "speed" = Some 1%Z
      /\ Dict.get (Competitor.review_themes c) "quality" = Some 1%Z
      /\ Dict.get (Competitor.review_themes c) "estimate" = None.
Proof.
  intros w your_address radius_miles stub details Hgeo Hsearch Hdist Hdetails
         Hreviews.
  assert (Hfull : Details.is_empty details = false).
  { unfold Details.is_empty. rewrite Hreviews.
    destruct (Details.name details), (Details.formatted_address details),
      (Details.formatted_phone_number details), (Details.rating details),
      (Details.user_ratings_total details), (Details.website details);
      reflexivity. }
  destruct scenario_text_mining as [Hpricing Hkeywords].
  exists (build_competitor w scenario_origin stub details).
  split.
  - unfold analyze_competitors, discover_competitors.
    rewrite Hgeo, Hsearch. unfold process_places. cbn [fold_left].
    rewrite Hdetails, Hfull. reflexivity.
  - unfold build_competitor. rewrite Hreviews. cbn [get_default].
    rewrite Hkeywords, Hpricing.
    cbn [Competitor.distance_miles Competitor.pricing_info
         Competitor.positive_keywords Competitor.review_themes].
    split; [now apply round2_of_2 |].
    split; [reflexivity |].
    split; [now left |].
    repeat split.
Qed.

Lemma scenario_competitor_witness :
  exists c,
    analyze_competitors scenario_world "12 Main St" 5%Z = Return [c]
    /\ (Competitor.distance_miles c == 2)%Q
    /\ Competitor.pricing_info c = ["$8,500"; "quote was $8,500"]
    /\ In "professional" (Competitor.positive_keywords c)
    /\ Dict.get (Competitor.review_themes c) "speed" = Some 1%Z
    /\ Dict.get (Competitor.review_themes c) "quality" = Some 1%Z
    /\ Dict.get (Competitor.review_themes c) "estimate" = None.
Proof.
  apply (scenario_competitor scenario_world "12 Main St" 5%Z acme_stub
           scenario_details); reflexivity.
Defined.

(** ** Average rating *)

Lemma Qlt_bool_iff (x y : Q) : Qlt_bool x y = true <-> (x < y)%Q.
Proof.
  unfold Qlt_bool. rewrite negb_true_iff. split.
  - intros H. apply Qnot_le_lt. intros Hle.
    apply Qle_bool_iff in Hle. congruence.
  - intros H. destruct (Qle_bool y x) eqn:Hle; [| reflexivity].
    apply Qle_bool_iff in Hle. exfalso. exact (Qlt_not_le _ _ H Hle).
Qed.

Lemma avg_rating_of_rated (competitors : list Competitor.t) :
  rated competitors <> [] ->
  avg_rating competitors
  = Return (Qsum (map Competitor.rating (rated competitors))
            / inject_Z (Z.of_nat (List.length (rated competitors))))%Q.
Proof.
  intros Hne. unfold avg_rating.
  destruct (rated competitors) as [| c r]; [congruence |].
  reflexivity.
Qed.

Lemma avg_rating_without_rated (competitors : list Competitor.t) :
  (forall c, In c competitors -> (Competitor.rating c <= 0)%Q) ->
  avg_rating competitors = Raise ZeroDivisionError.
Proof.
  intros Hnone. unfold avg_rating, rated.
  rewrite filter_none; [reflexivity |].
  intros c Hc. destruct (Qlt_bool 0 (Competitor.rating c)) eqn:Hlt;
    [| reflexivity].
  apply Qlt_bool_iff in Hlt. exfalso.
  exact (Qlt_not_le _ _ Hlt (Hnone c Hc)).
Qed.

(** C1. The average rating is the mean of the positive ratings when there is
    one, but the code does not guard the empty case: a run whose search
    returns one stub with a details record that has no rating builds one
    competitor with the rating 0, and the average of that list, like the
    average of the empty list, ends in [ZeroDivisionError] instead of a
    "no data" value. *)
Theorem avg_rating_divides_by_zero :
  exists competitors,
    analyze_competitors (sample_world (last_page "OK" [unrated_stub]))
                        "12 Main St" 5%Z
    = Return competitors
    /\ List.length competitors = 1
    /\ avg_rating competitors = Raise ZeroDivisionError
    /\ avg_rating [] = Raise ZeroDivisionError.
Proof.
  eexists. split; [reflexivity |].
  split; [reflexivity |]. split; reflexivity.
Qed.

(** ** Service gaps *)

Lemma dict_set_keys_In {V : Type} (d : Dict.t V) (k : string) (v : V) (x : string) :
  In x (Dict.keys (Dict.set d k v)) -> In x (Dict.keys d) \/ x = k.
Proof.
  induction d as [| [k0 v0] r IH]; simpl.
  - intros [<- | []]. now right.
  - destruct (String.eqb k k0); simpl.
    + intros [<- | H]; [left; now left | left; now right].
    + intros [<- | H]; [left; now left |].
      destruct (IH H); [left; now right | now right].
Qed.

Lemma dict_set_keys_NoDup {V : Type} (d : Dict.t V) (k : string) (v : V) :
  NoDup (Dict.keys d) -> NoDup (Dict.keys (Dict.set d k v)).
Proof.
  induction d as [| [k0 v0] r IH]; simpl; intros Hnd.
  - repeat constructor. tauto.
  - inversion Hnd as [| ? ? Hk0 Hr]; subst.
    destruct (String.eqb_spec k k0) as [-> | Hne]; simpl.
    + now constructor.
    + constructor; [| now apply IH].
      intros Hin. apply dict_set_keys_In in Hin.
      destruct Hin as [Hin | Heq]; [tauto | congruence].
Qed.

Lemma counter_loop_get (s : string) :
  forall (xs : list string) (counts : Dict.t Z),
    Dict.get
      (fold_left
         (fun counts x =>
            Dict.set counts x (get_default (Dict.get counts x) 0 + 1)%Z)
         xs counts) s
    = if count_occ string_dec xs s =? 0
      then Dict.get counts s
      else Some (get_default (Dict.get counts s) 0
                 + Z.of_nat (count_occ string_dec xs s))%Z.
Proof.
  induction xs as [| x r IH]; intros counts; [reflexivity |].
  cbn [fold_left count_occ]. rewrite IH, dict_get_set.
  destruct (string_dec x s) as [-> | Hne].
  - rewrite String.eqb_refl. cbn [get_default Nat.eqb].
    destruct (count_occ string_dec r s) as [| n]; cbn [Nat.eqb].
    + f_equal; lia.
    + f_equal; lia.
  - destruct (String.eqb_spec s x) as [-> | _]; [congruence | reflexivity].
Qed.

Lemma counter_loop_keys (xs : list string) :
  forall counts : Dict.t Z,
    NoDup (Dict.keys counts) ->
    NoDup (Dict.keys
             (fold_left
                (fun counts x =>
                   Dict.set counts x (get_default (Dict.get counts x) 0 + 1)%Z)
                xs counts)).
Proof.
  induction xs as [| x r IH]; intros counts Hnd; [exact Hnd |].
  cbn [fold_left]. apply IH. now apply dict_set_keys_NoDup.
Qed.

Lemma Counter_In (xs : list string) (s : string) (n : Z) :
  In (s, n) (Counter xs)
  <-> In s xs /\ n = Z.of_nat (count_occ string_dec xs s).
Proof.
  assert (Hget : Dict.get (Counter xs) s
                 = if count_occ string_dec xs s =? 0 then None
                   else Some (Z.of_nat (count_occ string_dec xs s))).
  { unfold Counter. rewrite counter_loop_get. reflexivity. }
  assert (Hkeys : NoDup (Dict.keys (Counter xs))).
  { unfold Counter. apply counter_loop_keys. constructor. }
  split.
  - intros Hin. apply (dict_get_In _ _ _ Hkeys) in Hin.
    rewrite Hget in Hin.
    destruct (Nat.eqb_spec (count_occ string_dec xs s) 0) as [| Hpos];
      [discriminate |].
    split; [| now inversion Hin].
    apply (count_occ_In string_dec). lia.
  - intros [Hin ->]. apply dict_get_Some_In. rewrite Hget.
    apply (count_occ_In string_dec) in Hin.
    destruct (Nat.eqb_spec (count_occ string_dec xs s) 0); [lia | reflexivity].
Qed.

Lemma gaps_loop_spec (total : Z) :
  total <> 0%Z ->
  forall (items : list (string * Z)) (gaps : list Gap.t),
    fold_left
      (fun (acc : outcome (list Gap.t)) (item : string * Z) =>
         match acc with
         | Raise e => Raise e
         | Return gaps =>
             let (service, count) := item in
             if (total =? 0)%Z then Raise ZeroDivisionError
             else if Qlt_bool (inject_Z count / inject_Z total)%Q (3 # 10)%Q
                  then Return (gaps ++ [Gap.mk service count total])%list
                  else Return gaps
         end)
      items (Return gaps)
    = Return
        (gaps
           ++ map (fun item => Gap.mk (fst item) (snd item) total)
                (filter
                   (fun item =>
                      Qlt_bool (inject_Z (snd item) / inject_Z total)%Q (3 # 10)%Q)
                   items))%list.
Proof.
  intros Htotal. apply Z.eqb_neq in Htotal.
  match goal with
  | |- forall items gaps, fold_left ?step items _ = _ => set (f := step)
  end.
  assert (Hstep : forall gaps service count,
             f (Return gaps) (service, count)
             = if Qlt_bool (inject_Z count / inject_Z total)%Q (3 # 10)%Q
               then Return (gaps ++ [Gap.mk service count total])%list
               else Return gaps).
  { intros. unfold f. now rewrite Htotal. }
  induction items as [| [service count] r IH]; intros gaps.
  - simpl. now rewrite app_nil_r.
  - cbn [fold_left filter fst snd]. rewrite Hstep.
    destruct (Qlt_bool (inject_Z count / inject_Z total)%Q (3 # 10)%Q).
    + rewrite IH. cbn [map fst snd]. now rewrite <- app_assoc.
    + apply IH.
Qed.

(** C6. For a competitor list that is not empty, the gap computation ends
    with a list of gaps, and a service is flagged in it if and only if some
    competitor lists it and the number of its occurrences divided by the
    number of competitors is strictly smaller than 0.30.  A service whose
    ratio is exactly 0.30, such as one offered by 3 competitors of 10, is not
    flagged. *)
Theorem service_gap_iff_ratio_below_30_percent :
  forall competitors : list Competitor.t,
    (0 < Z.of_nat (List.length competitors))%Z ->
    exists gaps,
      service_gaps competitors = Return gaps
      /\ forall service : string,
           let occurrence_count :=
             Z.of_nat (count_occ string_dec (all_services competitors) service) in
           let total_competitors := Z.of_nat (List.length competitors) in
           (flagged service gaps
            <-> In service (all_services competitors)
                /\ (inject_Z occurrence_count / inject_Z total_competitors
                    < 3 # 10)%Q)
           /\ ((inject_Z occurrence_count / inject_Z total_competitors
                == 3 # 10)%Q ->
               ~ flagged service gaps).
Proof.
  intros competitors Htotal.
  eexists. split.
  - unfold service_gaps. rewrite gaps_loop_spec by lia. reflexivity.
  - intros service occurrence_count total_competitors. cbn [app].
    assert (Hiff :
      flagged service
        (map (fun item => Gap.mk (fst item) (snd item) total_competitors)
           (filter
              (fun item =>
                 Qlt_bool (inject_Z (snd item) / inject_Z total_competitors)%Q
                          (3 # 10)%Q)
              (Counter (all_services competitors))))
      <-> In service (all_services competitors)
          /\ (inject_Z occurrence_count / inject_Z total_competitors < 3 # 10)%Q).
    { unfold flagged. split.
      - intros [g [Hg Hservice]].
        apply in_map_iff in Hg. destruct Hg as [[s n] [Hmk Hin]].
        apply filter_In in Hin. destruct Hin as [Hin Hlt].
        subst g. cbn in Hservice. subst s.
        apply Counter_In in Hin. destruct Hin as [Hin ->].
        split; [exact Hin |]. now apply Qlt_bool_iff.
      - intros [Hin Hlt].
        exists (Gap.mk service occurrence_count total_competitors).
        split; [| reflexivity].
        apply in_map_iff. exists (service, occurrence_count).
        split; [reflexivity |].
        apply filter_In. split.
        + apply Counter_In. now split.
        + now apply Qlt_bool_iff. }
    split; [exact Hiff |].
    intros Heq Hflag. apply Hiff in Hflag. destruct Hflag as [_ Hlt].
    rewrite Heq in Hlt. discriminate Hlt.
Qed.

Lemma service_gap_iff_ratio_below_30_percent_witness :
  exists gaps,
    service_gaps ten_competitors = Return gaps
    /\ ~ flagged "Gutter" gaps
    /\ flagged "Skylight" gaps.
Proof.
  destruct (service_gap_iff_ratio_below_30_percent ten_competitors)
    as [gaps [Hrun Hspec]]; [reflexivity |].
  exists gaps. split; [exact Hrun |]. split.
  - apply (proj2 (Hspec "Gutter")). reflexivity.
  - apply (proj1 (Hspec "Skylight")). split; [simpl; tauto | reflexivity].
Defined.

(** * Further properties of the pipeline *)

(** ** Substrings *)

Lemma contains_trans (s k k' : string) :
  PyStr.contains s k = true -> PyStr.contains k k' = true ->
  PyStr.contains s k' = true.
Proof.
  rewrite !contains_iff.
  intros [pre [post ->]] [pre' [post' ->]].
  exists (pre ++ pre'), (post' ++ post).
  now rewrite !string_app_assoc.
Qed.

Lemma contains_in_context (pre s post k : string) :
  PyStr.contains s k = true -> PyStr.contains (pre ++ s ++ post) k = true.
Proof.
  rewrite !contains_iff. intros [a [b ->]].
  exists (pre ++ a), (b ++ post). now rewrite !string_app_assoc.
Qed.

Lemma join_app (sep : string) (a b : list string) :
  PyStr.join sep (a ++ b)%list
  = match a, b with
    | [], _ => PyStr.join sep b
    | _, [] => PyStr.join sep a
    | _ :: _, _ :: _ => PyStr.join sep a ++ sep ++ PyStr.join sep b
    end.
Proof.
  induction a as [| x a IH]; [reflexivity |].
  destruct b as [| y b]; [now rewrite app_nil_r |].
  destruct a as [| x' a].
  - reflexivity.
  - change (PyStr.join sep ((x :: x' :: a) ++ y :: b)%list)
      with (x ++ sep ++ PyStr.join sep ((x' :: a) ++ y :: b)%list).
    rewrite IH.
    change (PyStr.join sep (x :: x' :: a))
      with (x ++ sep ++ PyStr.join sep (x' :: a)).
    now rewrite !string_app_assoc.
Qed.

Lemma review_blob_middle (before reviews after : list Review.t) :
  exists pre post,
    review_blob (before ++ reviews ++ after)%list
    = pre ++ review_blob reviews ++ post.
Proof.
  unfold review_blob. rewrite !map_app.
  set (f := fun review => PyStr.lower (review_text review)).
  assert (Hright : forall l r : list string,
             exists post, PyStr.join " " (l ++ r)%list = PyStr.join " " l ++ post).
  { intros l r. rewrite join_app. destruct l as [| x l].
    - now exists (PyStr.join " " r).
    - destruct r as [| y r].
      + exists "". now rewrite string_app_nil_r.
      + now eexists. }
  assert (Hleft : forall l r : list string,
             exists pre, PyStr.join " " (l ++ r)%list = pre ++ PyStr.join " " r).
  { intros l r. rewrite join_app. destruct l as [| x l].
    - now exists "".
    - destruct r as [| y r].
      + exists (PyStr.join " " (x :: l)). cbn [PyStr.join].
        now rewrite string_app_nil_r.
      + exists (PyStr.join " " (x :: l) ++ " ").
        now rewrite string_app_assoc. }
  destruct (Hleft (map f before) (map f reviews ++ map f after)%list) as [pre ->].
  destruct (Hright (map f reviews) (map f after)) as [post ->].
  now exists pre, post.
Qed.

(** X1. The indicator phrases are matched as substrings, without regard to
    word boundaries: whenever a phrase occurs in the review text, every
    indicator phrase that is a substring of it is reported too.  A review
    that says "unprofessional" therefore always yields the positive keyword
    "professional". *)
Theorem keywords_match_inside_longer_phrases :
  forall (reviews : list Review.t) (k k' : string),
    let positive := fst (fst (analyze_review_keywords reviews)) in
    let negative := snd (fst (analyze_review_keywords reviews)) in
    PyStr.contains (review_blob reviews) k = true ->
    PyStr.contains k k' = true ->
    (In k' positive_indicators -> In k' positive)
    /\ (In k' negative_indicators -> In k' negative)
    /\ (k = "unprofessional" -> In k negative /\ In "professional" positive).
Proof.
  intros reviews k k' positive negative Hk Hsub.
  assert (Hk' : PyStr.contains (review_blob reviews) k' = true)
    by exact (contains_trans _ _ _ Hk Hsub).
  unfold positive, negative, analyze_review_keywords. cbn [fst snd].
  split; [| split].
  - intros Hin. apply filter_In. now split.
  - intros Hin. apply filter_In. now split.
  - intros ->. split.
    + apply filter_In. split; [| exact Hk].
      unfold negative_indicators. simpl. tauto.
    + apply filter_In. split.
      * unfold positive_indicators. simpl. tauto.
      * apply (contains_trans _ _ _ Hk). reflexivity.
Qed.

Lemma keywords_match_inside_longer_phrases_witness :
  In "unprofessional"
     (snd (fst (analyze_review_keywords
                  [Review.mk (Some "The crew was UNPROFESSIONAL.")])))
  /\ In "professional"
        (fst (fst (analyze_review_keywords
                     [Review.mk (Some "The crew was UNPROFESSIONAL.")]))).
Proof.
  exact (proj2 (proj2 (keywords_match_inside_longer_phrases
                         [Review.mk (Some "The crew was UNPROFESSIONAL.")]
                         "unprofessional" "professional" eq_refl eq_refl))
           eq_refl).
Defined.

(** X2. Keywords are monotone in the reviews: a positive or negative keyword
    found in a list of reviews is still found when further reviews are put
    before or after them. *)
Theorem keywords_survive_more_reviews :
  forall (before reviews after : list Review.t) (k : string),
    (In k (fst (fst (analyze_review_keywords reviews))) ->
     In k (fst (fst (analyze_review_keywords (before ++ reviews ++ after)%list))))
    /\ (In k (snd (fst (analyze_review_keywords reviews))) ->
        In k (snd (fst (analyze_review_keywords (before ++ reviews ++ after)%list)))).
Proof.
  intros before reviews after k.
  destruct (review_blob_middle before reviews after) as [pre [post Hblob]].
  unfold analyze_review_keywords. cbn [fst snd]. rewrite Hblob.
  split; intros Hin; apply filter_In in Hin; destruct Hin as [Hvoc Hk];
    apply filter_In; (split; [exact Hvoc | now apply contains_in_context]).
Qed.

Lemma keywords_survive_more_reviews_witness :
  In "late"
     (snd (fst (analyze_review_keywords
                  ([Review.mk None] ++ [Review.mk (Some "Always late")]
                     ++ [Review.mk (Some "Great work")])%list))).
Proof.
  apply (proj2 (keywords_survive_more_reviews
                  [Review.mk None] [Review.mk (Some "Always late")]
                  [Review.mk (Some "Great work")] "late")).
  simpl. tauto.
Defined.

(** ** Themes and presence *)

Lemma Zsum_acc (l : list Z) :
  forall a, fold_left Z.add l a = (a + Zsum l)%Z.
Proof.
  unfold Zsum. induction l as [| x l IH]; intros a; cbn [fold_left].
  - lia.
  - rewrite IH, (IH (0 + x)%Z). lia.
Qed.

Lemma Zsum_cons (x : Z) (l : list Z) : Zsum (x :: l) = (x + Zsum l)%Z.
Proof. unfold Zsum at 1. cbn [fold_left]. rewrite Zsum_acc. lia. Qed.

Lemma theme_count_pos_iff (all_text : string) (keywords : list string) :
  (0 < theme_count all_text keywords)%Z
  <-> exists keyword,
        In keyword keywords /\ PyStr.contains all_text keyword = true.
Proof.
  unfold theme_count.
  induction keywords as [| k r IH]; cbn [map].
  - split; [cbv; discriminate | intros [? [[] _]]].
  - rewrite Zsum_cons.
    assert (Hk := count_from_nonneg k all_text 0).
    fold (PyStr.count all_text k) in Hk.
    assert (Hr : (0 <= Zsum (map (fun keyword => PyStr.count all_text keyword) r))%Z).
    { clear. induction r as [| x r IHr]; [cbv; discriminate |].
      cbn [map]. rewrite Zsum_cons.
      pose proof (count_from_nonneg x all_text 0) as Hx.
      fold (PyStr.count all_text x) in Hx. lia. }
    split.
    + intros Hpos.
      destruct (Z.ltb_spec 0 (PyStr.count all_text k)) as [Hlt | Hle].
      * exists k. split; [now left |].
        now apply (count_from_pos_contains k all_text 0).
      * assert (Hrest : (0 < Zsum (map (fun keyword => PyStr.count all_text keyword) r))%Z)
          by lia.
        apply IH in Hrest. destruct Hrest as [kw [Hin Hc]].
        exists kw. split; [now right | exact Hc].
    + intros [kw [[<- | Hin] Hc]].
      * apply contains_count_pos in Hc. lia.
      * assert (Hrest : (0 < Zsum (map (fun keyword => PyStr.count all_text keyword) r))%Z).
        { apply IH. now exists kw. }
        lia.
Qed.

(** X3. A theme has an entry in the theme mapping of a list of reviews if and
    only if at least one of its trigger phrases occurs in the lower-cased,
    space-joined review text. *)
Theorem theme_present_iff_phrase_occurs :
  forall (reviews : list Review.t) (theme : string),
    (exists count,
        Dict.get (snd (analyze_review_keywords reviews)) theme = Some count)
    <-> exists keywords keyword,
          In (theme, keywords) opportunity_keywords
          /\ In keyword keywords
          /\ PyStr.contains (review_blob reviews) keyword = true.
Proof.
  intros reviews theme.
  unfold analyze_review_keywords. cbn [snd].
  rewrite (themes_loop_get _ _ _ _ opportunity_themes_distinct).
  cbn [Dict.get].
  split.
  - intros [count Hget].
    destruct (Dict.get opportunity_keywords theme) as [keywords |] eqn:Hvoc;
      [| discriminate].
    destruct (0 <? theme_count (review_blob reviews) keywords)%Z eqn:Hpos;
      [| discriminate].
    apply Z.ltb_lt, theme_count_pos_iff in Hpos.
    destruct Hpos as [keyword [Hin Hc]].
    exists keywords, keyword.
    split; [now apply dict_get_Some_In | now split].
  - intros [keywords [keyword [Hvoc [Hin Hc]]]].
    rewrite (dict_get_In _ _ _ opportunity_themes_distinct Hvoc).
    assert (Hpos : (0 < theme_count (review_blob reviews) keywords)%Z).
    { apply theme_count_pos_iff. now exists keyword. }
    apply Z.ltb_lt in Hpos. rewrite Hpos. now eexists.
Qed.

Lemma theme_present_iff_phrase_occurs_witness :
  exists count,
    Dict.get (snd (analyze_review_keywords
                     [Review.mk (Some "They gave us a DETAILED QUOTE")]))
             "estimate"
    = Some count.
Proof.
  apply (proj2 (theme_present_iff_phrase_occurs
                  [Review.mk (Some "They gave us a DETAILED QUOTE")] "estimate")).
  exists ["free estimate"; "accurate estimate"; "detailed quote"; "overestimate"],
         "detailed quote".
  split; [| split; [| reflexivity]].
  - repeat (first [left; reflexivity | right]).
  - simpl. tauto.
Defined.

(** ** More on pricing mentions *)

Lemma startswith_take (n : nat) :
  forall s, PyStr.startswith s (PyStr.take n s) = true.
Proof.
  induction n as [| n IH]; intros s; destruct s as [| c r]; try reflexivity.
  cbn [PyStr.take PyStr.startswith]. rewrite Ascii.eqb_refl. apply IH.
Qed.

Lemma findall_from_substring (re : Re.regex) (m : string) :
  forall s skip,
    In m (Re.findall_from skip re s) -> PyStr.contains s m = true.
Proof.
  induction s as [| c r IH]; intros skip; cbn [Re.findall_from PyStr.contains].
  - destruct skip; [| intros []].
    destruct (Re.match_here re ""); [| intros []].
    intros [<- | []]. reflexivity.
  - destruct skip as [| k].
    + destruct (Re.match_here re (String c r)) as [n |].
      * intros [<- | Hin].
        -- now rewrite startswith_take.
        -- rewrite (IH _ Hin). apply orb_true_r.
      * intros Hin. rewrite (IH _ Hin). apply orb_true_r.
    + intros Hin. rewrite (IH _ Hin). apply orb_true_r.
Qed.

Lemma match_here_consumes (re : Re.regex) (s : string) (n : nat) :
  consumes_first re = true -> Re.match_here re s = Some n -> 0 < n /\ s <> "".
Proof.
  destruct re as [| it re']; [discriminate |].
  cbn [consumes_first Re.match_here].
  destruct (Re.quant it); try discriminate; intros _;
    (destruct s as [| c r]; [discriminate |]);
    (destruct (Re.accepts it c); [| discriminate]).
  - destruct (Re.match_here re' r); [| discriminate].
    cbn [option_map]. intros H. inversion H. split; [lia | discriminate].
  - destruct (Re.greedy (Re.accepts it) (Re.match_here re') r); [| discriminate].
    cbn [option_map]. intros H. inversion H. split; [lia | discriminate].
Qed.

Lemma findall_from_nonempty (re : Re.regex) (m : string) :
  consumes_first re = true ->
  forall s skip, In m (Re.findall_from skip re s) -> m <> "".
Proof.
  intros Hre.
  induction s as [| c r IH]; intros skip; cbn [Re.findall_from].
  - destruct skip; [| intros []].
    destruct (Re.match_here re "") as [n |] eqn:Hm; [| intros []].
    destruct (match_here_consumes _ _ _ Hre Hm) as [_ Habs]. congruence.
  - destruct skip as [| k]; [| apply IH].
    destruct (Re.match_here re (String c r)) as [n |] eqn:Hm; [| apply IH].
    intros [<- | Hin]; [| exact (IH _ Hin)].
    destruct (match_here_consumes _ _ _ Hre Hm) as [Hn _].
    destruct n as [| n]; [lia | discriminate].
Qed.

Lemma lower_char_idem (c : ascii) :
  PyStr.lower_char (PyStr.lower_char c) = PyStr.lower_char c.
Proof. destruct c as [[] [] [] [] [] [] [] []]; reflexivity. Qed.

Lemma lower_idem (s : string) : PyStr.lower (PyStr.lower s) = PyStr.lower s.
Proof.
  induction s as [| c r IH]; simpl; [reflexivity |].
  now rewrite lower_char_idem, IH.
Qed.

Lemma lower_fixes_substring (pre m post : string) :
  PyStr.lower (pre ++ m ++ post) = pre ++ m ++ post -> PyStr.lower m = m.
Proof.
  induction pre as [| c pre IH]; simpl.
  - induction m as [| c m IHm]; simpl; [reflexivity |].
    intros H. injection H as Hc Hrest. rewrite Hc.
    f_equal. now apply IHm.
  - intros H. injection H as Hc Hrest. now apply IH.
Qed.

Lemma extract_pricing_In (reviews : list Review.t) (m : string) :
  In m (extract_pricing_from_reviews reviews) <-> In m (all_price_matches reviews).
Proof.
  unfold extract_pricing_from_reviews.
  rewrite pricing_loop_flat, fold_add_match_spec. cbn [app].
  rewrite first_seen_In, filter_In. cbn [PyStr.mem existsb negb]. tauto.
Qed.

Lemma price_patterns_consume :
  forallb consumes_first price_patterns = true.
Proof. reflexivity. Qed.

(** X4. Every pricing mention is a substring of the lower-cased text of one
    of the reviews: it is not empty and it is in lower case, whatever the
    case of the review. *)
Theorem pricing_mentions_are_lowercase_substrings :
  forall (reviews : list Review.t) (m : string),
    In m (extract_pricing_from_reviews reviews) ->
    m <> ""
    /\ PyStr.lower m = m
    /\ exists review,
         In review reviews
         /\ PyStr.contains (PyStr.lower (review_text review)) m = true.
Proof.
  intros reviews m Hin.
  apply extract_pricing_In in Hin. unfold all_price_matches in Hin.
  apply in_flat_map in Hin. destruct Hin as [review [Hreview Hin]].
  apply in_flat_map in Hin. destruct Hin as [pattern [Hpattern Hin]].
  assert (Hsub : PyStr.contains (PyStr.lower (review_text review)) m = true)
    by exact (findall_from_substring _ _ _ _ Hin).
  split; [| split].
  - apply (findall_from_nonempty pattern m) with (s := PyStr.lower (review_text review))
                                                 (skip := 0); [| exact Hin].
    exact (proj1 (forallb_forall _ _) price_patterns_consume pattern Hpattern).
  - apply contains_iff in Hsub. destruct Hsub as [pre [post Heq]].
    apply (lower_fixes_substring pre m post).
    rewrite <- Heq. apply lower_idem.
  - now exists review.
Qed.

Lemma pricing_mentions_are_lowercase_substrings_witness :
  "$12 per square foot" <> ""
  /\ PyStr.lower "$12 per square foot" = "$12 per square foot"
  /\ exists review,
       In review [Review.mk (Some "Paid $12 Per Square Foot")]
       /\ PyStr.contains (PyStr.lower (review_text review)) "$12 per square foot"
          = true.
Proof.
  apply (pricing_mentions_are_lowercase_substrings
           [Review.mk (Some "Paid $12 Per Square Foot")]).
  vm_compute. tauto.
Defined.

(** X5. Pricing mentions only grow at the end: the mentions of a list of
    reviews followed by further reviews are the mentions of the first list,
    in the same order, followed by mentions that the first list did not
    have. *)
Theorem pricing_of_more_reviews_extends :
  forall reviews more : list Review.t,
    exists added,
      extract_pricing_from_reviews (reviews ++ more)%list
      = (extract_pricing_from_reviews reviews ++ added)%list
      /\ forall m, In m added ->
                   ~ In m (extract_pricing_from_reviews reviews)
                   /\ In m (extract_pricing_from_reviews more).
Proof.
  intros reviews more.
  unfold extract_pricing_from_reviews at 1. unfold pricing_loop.
  rewrite fold_left_app.
  change (fold_left _ reviews []) with (extract_pricing_from_reviews reviews).
  match goal with
  | |- context [fold_left ?f more ?acc] =>
      change (fold_left f more acc) with (pricing_loop more acc)
  end.
  rewrite pricing_loop_flat, fold_add_match_spec.
  eexists. split; [reflexivity |].
  intros m Hm. apply first_seen_In, filter_In in Hm. destruct Hm as [Hin Hnew].
  split.
  - intros Hold. apply mem_In in Hold. rewrite Hold in Hnew. discriminate.
  - now apply extract_pricing_In.
Qed.

Lemma no_price_in_empty_text :
  flat_map (fun pattern => Re.findall pattern (PyStr.lower "")) price_patterns = [].
Proof. reflexivity. Qed.

(** X6. A review without a ['text'] key, or with an empty text, adds no
    pricing mention: the mentions are those of the list without it. *)
Theorem review_without_text_has_no_price :
  forall (before after : list Review.t) (review : Review.t),
    review_text review = "" ->
    extract_pricing_from_reviews (before ++ review :: after)%list
    = extract_pricing_from_reviews (before ++ after)%list.
Proof.
  intros before after review Htext.
  unfold extract_pricing_from_reviews. rewrite !pricing_loop_flat.
  f_equal. unfold all_price_matches.
  rewrite !flat_map_app. f_equal. cbn [flat_map].
  rewrite Htext, no_price_in_empty_text. reflexivity.
Qed.

Lemma review_without_text_has_no_price_witness :
  extract_pricing_from_reviews
    ([Review.mk (Some "It cost $900")] ++ Review.mk None :: [])%list
  = extract_pricing_from_reviews ([Review.mk (Some "It cost $900")] ++ [])%list.
Proof.
  apply (review_without_text_has_no_price
           [Review.mk (Some "It cost $900")] [] (Review.mk None)).
  reflexivity.
Defined.

Lemma pricing_of_more_reviews_extends_witness :
  exists added,
    extract_pricing_from_reviews
      ([Review.mk (Some "It cost $900")] ++ [Review.mk (Some "Quote: $900 or $1,200")])%list
    = (extract_pricing_from_reviews [Review.mk (Some "It cost $900")] ++ added)%list
    /\ forall m, In m added ->
                 ~ In m (extract_pricing_from_reviews [Review.mk (Some "It cost $900")])
                 /\ In m (extract_pricing_from_reviews
                            [Review.mk (Some "Quote: $900 or $1,200")]).
Proof.
  exact (pricing_of_more_reviews_extends
           [Review.mk (Some "It cost $900")]
           [Review.mk (Some "Quote: $900 or $1,200")]).
Defined.

(** ** Services *)

Lemma services_loop_spec (f : string -> bool) :
  forall (keywords : list string) (services : list string),
    fold_left
      (fun services keyword =>
         if f keyword then (services ++ [PyStr.title keyword])%list else services)
      keywords services
    = (services ++ map PyStr.title (filter f keywords))%list.
Proof.
  induction keywords as [| k r IH]; intros services; cbn [fold_left filter].
  - now rewrite app_nil_r.
  - rewrite IH. destruct (f k); [| reflexivity].
    cbn [map]. now rewrite <- app_assoc.
Qed.

Lemma extract_services_In (w : World) (text s : string) :
  In s (extract_services_from_text w text)
  <-> exists keyword,
        In keyword service_keywords
        /\ PyStr.contains (PyStr.lower text) keyword = true
        /\ s = PyStr.title keyword.
Proof.
  unfold extract_services_from_text.
  rewrite (proj2 (set_order_spec w _) s), services_loop_spec. cbn [app].
  rewrite in_map_iff. split.
  - intros [k [<- Hk]]. apply filter_In in Hk. exists k. tauto.
  - intros [k [Hin [Hc ->]]]. exists k. split; [reflexivity |].
    apply filter_In. tauto.
Qed.

(** X7. The services found in a text have no duplicate, there are at most
    17 of them, and a service is found exactly when it is the title-cased
    form of a service phrase that occurs in the lower-cased text. *)
Theorem services_are_the_phrases_found :
  forall (w : World) (text : string),
    NoDup (extract_services_from_text w text)
    /\ (List.length (extract_services_from_text w text) <= 17)%nat
    /\ forall s,
         In s (extract_services_from_text w text)
         <-> exists keyword,
               In keyword service_keywords
               /\ PyStr.contains (PyStr.lower text) keyword = true
               /\ s = PyStr.title keyword.
Proof.
  intros w text.
  assert (Hnd : NoDup (extract_services_from_text w text)).
  { unfold extract_services_from_text. apply (set_order_spec w). }
  split; [exact Hnd |]. split; [| apply extract_services_In].
  change 17 with (List.length (map PyStr.title service_keywords)).
  apply NoDup_incl_length; [exact Hnd |].
  intros s Hs. apply extract_services_In in Hs.
  destruct Hs as [k [Hin [_ ->]]]. now apply in_map.
Qed.

Lemma services_are_the_phrases_found_witness :
  In "Gutter" (extract_services_from_text scenario_world "New GUTTERS and siding").
Proof.
  apply (proj2 (proj2 (services_are_the_phrases_found
                         scenario_world "New GUTTERS and siding"))).
  exists "gutter". split; [| split; reflexivity].
  simpl. tauto.
Defined.

(** X8. The services of a competitor come from the review texts and from
    the business name alike: a service phrase that occurs, in any case, in
    the name of the details record is among the services even when no review
    mentions it. *)
Theorem business_name_contributes_services :
  forall (w : World) (origin : Coordinate) (place : Place.t)
         (details : Details.t) (name keyword : string),
    Details.name details = Some name ->
    In keyword service_keywords ->
    PyStr.contains (PyStr.lower name) keyword = true ->
    In (PyStr.title keyword)
       (Competitor.services (build_competitor w origin place details)).
Proof.
  intros w origin place details name keyword Hname Hin Hc.
  unfold build_competitor.
  destruct (analyze_review_keywords _) as [[positive negative] themes].
  cbn [Competitor.services].
  apply extract_services_In. exists keyword.
  split; [exact Hin |]. split; [| reflexivity].
  rewrite Hname. cbn [get_default]. rewrite !lower_app.
  rewrite <- (string_app_nil_r (PyStr.lower name)), <- string_app_assoc.
  now apply contains_in_context.
Qed.

Lemma business_name_contributes_services_witness :
  In (PyStr.title "gutter")
     (Competitor.services
        (build_competitor scenario_world scenario_origin closed_stub
           (Details.mk (Some "Gutter Kings") None None None None None None))).
Proof.
  apply (business_name_contributes_services scenario_world scenario_origin
           closed_stub
           (Details.mk (Some "Gutter Kings") None None None None None None)
           "Gutter Kings" "gutter" eq_refl).
  - simpl. tauto.
  - reflexivity.
Defined.

(** ** Which stubs become competitors *)

Lemma is_empty_iff (d : Details.t) :
  Details.is_empty d = true <-> d = Details.empty.
Proof.
  split; [| intros ->; reflexivity].
  destruct d as [n a p r u ws rv]. unfold Details.is_empty. cbn.
  destruct n, a, p, r, u, ws, rv; try discriminate. reflexivity.
Qed.

(** X9. A stub of a batch yields a competitor exactly when its details
    request is answered with the success status and a record that has at
    least one field: the competitors that the loop builds are those of such
    stubs, each built from the stub and the record of its answer.  A success
    answer with an empty record is passed over like a refusal: the loop
    gives what it gives on the batch without the stub. *)
Theorem stub_kept_iff_details_present :
  forall (w : World) (origin : Coordinate) (places : list Place.t),
    (forall c,
        In c (process_places w origin places [])
        <-> exists place,
              In place places
              /\ is_OK (DetailsResponse.status
                          (details_api w (Place.place_id place))) = true
              /\ DetailsResponse.result (details_api w (Place.place_id place))
                 <> Details.empty
              /\ c = build_competitor w origin place
                       (DetailsResponse.result
                          (details_api w (Place.place_id place))))
    /\ (forall place before after competitors,
           DetailsResponse.result (details_api w (Place.place_id place))
           = Details.empty ->
           process_places w origin (before ++ place :: after)%list competitors
           = process_places w origin (before ++ after)%list competitors).
Proof.
  intros w origin places. split.
  - intros c. rewrite process_places_spec. cbn [app]. rewrite in_map_iff.
    unfold with_details. split.
    + intros [place [<- Hin]]. apply filter_In in Hin.
      destruct Hin as [Hin Hfull]. apply negb_true_iff in Hfull.
      exists place. unfold get_place_details in *.
      destruct (is_OK (DetailsResponse.status (details_api w (Place.place_id place))));
        [| discriminate Hfull].
      repeat split; [exact Hin |].
      intros Heq. rewrite Heq in Hfull. discriminate Hfull.
    + intros [place [Hin [Hok [Hne ->]]]]. exists place.
      unfold get_place_details. rewrite Hok. split; [reflexivity |].
      apply filter_In. split; [exact Hin |]. apply negb_true_iff.
      unfold get_place_details. rewrite Hok.
      destruct (Details.is_empty _) eqn:He; [| reflexivity].
      apply is_empty_iff in He. contradiction.
  - intros place before after competitors Hempty.
    assert (Hskip : get_place_details w (Place.place_id place) = Details.empty).
    { unfold get_place_details. rewrite Hempty. now destruct (is_OK _). }
    rewrite !process_places_app. unfold process_places at 1. cbn [fold_left].
    rewrite Hskip. reflexivity.
Qed.

Lemma stub_kept_iff_details_present_witness :
  In (build_competitor (sample_world sample_pages) scenario_origin unrated_stub
        (DetailsResponse.result (sample_details "unrated")))
     (process_places (sample_world sample_pages) scenario_origin
        [closed_stub; unrated_stub] [])
  /\ process_places (sample_world sample_pages) scenario_origin
       ([acme_stub] ++ closed_stub :: [unrated_stub])%list []
     = process_places (sample_world sample_pages) scenario_origin
         ([acme_stub] ++ [unrated_stub])%list [].
Proof.
  destruct (stub_kept_iff_details_present (sample_world sample_pages)
              scenario_origin [closed_stub; unrated_stub]) as [Hkept Hskip].
  split.
  - apply (proj2 (Hkept _)). exists unrated_stub.
    split; [simpl; tauto |]. split; [reflexivity |].
    split; [discriminate | reflexivity].
  - apply (Hskip closed_stub [acme_stub] [unrated_stub] []). reflexivity.
Defined.

(** X10. A run that returns gives one competitor for each stub of the search
    that has details, and no other: the returned list is a rearrangement of
    the competitors built from those stubs, so it is never longer than the
    list of stubs. *)
Theorem one_competitor_per_stub_with_details :
  forall (w : World) (your_address : string) (radius_miles : Z)
         (competitors : list Competitor.t),
    analyze_competitors w your_address radius_miles = Return competitors ->
    exists origin,
      geocode_address w your_address = Return origin
      /\ let places := search_nearby_roofing_companies w origin radius_miles in
         Permutation
           (map (fun place =>
                   build_competitor w origin place
                     (get_place_details w (Place.place_id place)))
                (with_details w places))
           competitors
         /\ List.length competitors = List.length (with_details w places)
         /\ (List.length competitors <= List.length places)%nat.
Proof.
  intros w your_address radius_miles competitors Hrun.
  unfold analyze_competitors, discover_competitors in Hrun.
  destruct (geocode_address w your_address) as [origin | e]; [| discriminate].
  inversion Hrun; subst. clear Hrun.
  exists origin. split; [reflexivity |]. cbn zeta.
  rewrite process_places_spec. cbn [app].
  split; [apply sort_by_distance_perm |].
  assert (Hlen : forall l, List.length (sort_by_distance l) = List.length l).
  { intros l. symmetry. apply Permutation_length, sort_by_distance_perm. }
  rewrite Hlen, length_map. split; [reflexivity |].
  unfold with_details. apply filter_length_le.
Qed.

Lemma one_competitor_per_stub_with_details_witness :
  exists competitors,
    analyze_competitors (sample_world sample_pages) "12 Main St" 5%Z
    = Return competitors
    /\ exists origin,
         geocode_address (sample_world sample_pages) "12 Main St" = Return origin
         /\ let places :=
              search_nearby_roofing_companies (sample_world sample_pages) origin 5%Z in
            Permutation
              (map (fun place =>
                      build_competitor (sample_world sample_pages) origin place
                        (get_place_details (sample_world sample_pages)
                           (Place.place_id place)))
                   (with_details (sample_world sample_pages) places))
              competitors
            /\ List.length competitors
               = List.length (with_details (sample_world sample_pages) places)
            /\ (List.length competitors <= List.length places)%nat.
Proof.
  eexists. split; [reflexivity |].
  apply (one_competitor_per_stub_with_details (sample_world sample_pages)
           "12 Main St" 5%Z).
  reflexivity.
Defined.

(** ** The summary metrics *)

Lemma min_by_distance_spec :
  forall (rest : list Competitor.t) (best : Competitor.t),
    In (min_by_distance best rest) (best :: rest)
    /\ forall d, In d (best :: rest) ->
                 distance_le (min_by_distance best rest) d.
Proof.
  unfold distance_le.
  induction rest as [| c r IH]; intros best; cbn [min_by_distance].
  - split; [now left |]. intros d [<- | []]. apply Qle_refl.
  - destruct (Qlt_bool (Competitor.distance_miles c) (Competitor.distance_miles best))
      eqn:Hlt.
    + apply Qlt_bool_iff in Hlt. destruct (IH c) as [Hin Hmin]. split.
      * right. exact Hin.
      * intros d [<- | Hd]; [| now apply Hmin].
        apply Qle_trans with (Competitor.distance_miles c);
          [apply Hmin; now left | now apply Qlt_le_weak].
    + assert (Hle : (Competitor.distance_miles best <= Competitor.distance_miles c)%Q).
      { apply Qnot_lt_le. intros H. apply Qlt_bool_iff in H. congruence. }
      destruct (IH best) as [Hin Hmin]. split.
      * destruct Hin as [Hin | Hin]; [now left | right; now right].
      * intros d [<- | [<- | Hd]].
        -- apply Hmin. now left.
        -- apply Qle_trans with (Competitor.distance_miles best);
             [apply Hmin; now left | exact Hle].
        -- apply Hmin. now right.
Qed.

Lemma min_by_distance_keeps_first :
  forall (rest : list Competitor.t) (best : Competitor.t),
    Forall (distance_le best) rest -> min_by_distance best rest = best.
Proof.
  induction rest as [| c r IH]; intros best Hall; [reflexivity |].
  inversion Hall as [| ? ? Hc Hr]; subst. cbn [min_by_distance].
  destruct (Qlt_bool (Competitor.distance_miles c) (Competitor.distance_miles best))
    eqn:Hlt; [| now apply IH].
  apply Qlt_bool_iff in Hlt. exfalso. exact (Qlt_not_le _ _ Hlt Hc).
Qed.

(** X11. The closest competitor of a list that is not empty is a member of
    the list whose distance no other member undercuts; on a list in ascending
    order of distance, as a run stores it, it is the first element, also when
    others are as near.  On the empty list the computation raises
    [ValueError]. *)
Theorem closest_is_first_of_sorted :
  closest [] = Raise ValueError
  /\ (forall competitors c,
         closest competitors = Return c ->
         In c competitors /\ forall d, In d competitors -> distance_le c d)
  /\ (forall first rest,
         StronglySorted distance_le (first :: rest) ->
         closest (first :: rest) = Return first)
  /\ (forall discovered first rest,
         sort_by_distance discovered = first :: rest ->
         closest (sort_by_distance discovered) = Return first).
Proof.
  split; [reflexivity |]. split; [| split].
  - intros [| best rest] c; cbn [closest]; [discriminate |].
    intros H. inversion H; subst. apply min_by_distance_spec.
  - intros first rest Hsorted. cbn [closest]. f_equal.
    apply min_by_distance_keeps_first.
    now apply StronglySorted_inv in Hsorted.
  - intros discovered first rest Heq.
    pose proof (sort_by_distance_sorted discovered) as Hsorted.
    rewrite Heq in *. cbn [closest]. f_equal.
    apply min_by_distance_keeps_first.
    now apply StronglySorted_inv in Hsorted.
Qed.

Lemma closest_is_first_of_sorted_witness :
  exists first,
    closest (sort_by_distance ten_competitors) = Return first
    /\ Competitor.name first = "A".
Proof.
  exists (offering "A" ["Gutter"; "Skylight"]). split.
  - apply (proj2 (proj2 (proj2 closest_is_first_of_sorted)) ten_competitors
             (offering "A" ["Gutter"; "Skylight"]) (tl ten_competitors)).
    reflexivity.
  - reflexivity.
Defined.

(** X12. The summary metrics of a competitor list are displayed exactly when
    some competitor has a positive rating; otherwise the display ends in
    [ZeroDivisionError].  It never ends in [ValueError]: the empty list, for
    which the closest competitor is undefined, fails on the average first. *)
Theorem summary_metrics_outcome :
  forall competitors : list Competitor.t,
    (rated competitors = [] ->
     summary_metrics competitors = Raise ZeroDivisionError)
    /\ (rated competitors <> [] ->
        exists avg nearest,
          avg_rating competitors = Return avg
          /\ closest competitors = Return nearest
          /\ summary_metrics competitors
             = Return (Summary.mk (Z.of_nat (List.length competitors)) avg
                                  (total_reviews competitors) nearest))
    /\ summary_metrics competitors <> Raise ValueError.
Proof.
  intros competitors.
  assert (Hnone : rated competitors = [] ->
                  summary_metrics competitors = Raise ZeroDivisionError).
  { intros H. unfold summary_metrics, avg_rating. now rewrite H. }
  assert (Hsome : rated competitors <> [] ->
            exists avg nearest,
              avg_rating competitors = Return avg
              /\ closest competitors = Return nearest
              /\ summary_metrics competitors
                 = Return (Summary.mk (Z.of_nat (List.length competitors)) avg
                                      (total_reviews competitors) nearest)).
  { intros H. unfold summary_metrics.
    rewrite (avg_rating_of_rated _ H).
    destruct competitors as [| c r]; [now elim H |].
    cbn [closest]. do 2 eexists. repeat split. }
  split; [exact Hnone |]. split; [exact Hsome |].
  destruct (rated competitors) eqn:Hr.
  - rewrite Hnone by reflexivity. discriminate.
  - destruct Hsome as [avg [nearest [_ [_ ->]]]]; discriminate.
Qed.

Lemma summary_metrics_outcome_witness :
  summary_metrics [] = Raise ZeroDivisionError
  /\ exists avg nearest,
       avg_rating ten_competitors = Return avg
       /\ closest ten_competitors = Return nearest
       /\ summary_metrics ten_competitors
          = Return (Summary.mk (Z.of_nat (List.length ten_competitors)) avg
                               (total_reviews ten_competitors) nearest).
Proof.
  split.
  - apply (proj1 (summary_metrics_outcome [])). reflexivity.
  - apply (proj1 (proj2 (summary_metrics_outcome ten_competitors))).
    discriminate.
Defined.

Lemma total_reviews_cons (c : Competitor.t) (l : list Competitor.t) :
  total_reviews (c :: l) = (Competitor.review_count c + total_reviews l)%Z.
Proof. unfold total_reviews. cbn [map]. apply Zsum_cons. Qed.

(** X13. The total of reviews does not depend on the order of the
    competitors: it is the same before and after the sort by distance, and
    every competitor counts in it, rated or not. *)
Theorem total_reviews_order_independent :
  forall l l' : list Competitor.t,
    Permutation l l' ->
    total_reviews l = total_reviews l'
    /\ total_reviews (sort_by_distance l) = total_reviews l
    /\ forall c, total_reviews (c :: l)
                 = (Competitor.review_count c + total_reviews l)%Z.
Proof.
  assert (Hperm : forall l l', Permutation l l' -> total_reviews l = total_reviews l').
  { induction 1 as [| x l l' _ IH | x y l | l l' l'' _ IH1 _ IH2].
    - reflexivity.
    - now rewrite !total_reviews_cons, IH.
    - rewrite !total_reviews_cons. lia.
    - now rewrite IH1. }
  intros l l' H. split; [now apply Hperm |]. split.
  - symmetry. apply Hperm, sort_by_distance_perm.
  - intros c. apply total_reviews_cons.
Qed.

Lemma total_reviews_order_independent_witness :
  total_reviews ten_competitors = total_reviews (rev ten_competitors).
Proof.
  apply (proj1 (total_reviews_order_independent ten_competitors
                  (rev ten_competitors) (Permutation_rev ten_competitors))).
Defined.

(** ** The control flow of [main] *)

(** X15. When the analyze button is pressed, either the run goes through
    without a message, and then the session holds exactly the competitors
    that [analyze_competitors] returns for the address and the radius,
    together with both, and the results section shows their summary; or a
    message is shown, and then the session is left as it was and the results
    section is not reached in that execution.  The run goes through exactly
    when the address is not empty, geocodes, and the search finds a stub. *)
Theorem main_stores_what_analyze_competitors_returns :
  forall (w : World) (address : string) (radius : Z)
         (session : option Session.t),
    let result := main w true address radius session in
    let session' := fst (fst result) in
    let notices := snd (fst result) in
    let view := snd result in
    (notices <> [] -> session' = session /\ view = None)
    /\ (notices = [] ->
        exists competitors,
          analyze_competitors w address radius = Return competitors
          /\ session' = Some (Session.mk competitors address radius)
          /\ view = Some (summary_metrics competitors))
    /\ (notices = []
        <-> address <> ""
            /\ exists origin,
                 geocode_address w address = Return origin
                 /\ search_nearby_roofing_companies w origin radius <> []).
Proof.
  intros w address radius session. cbn zeta. unfold main.
  destruct (String.eqb_spec address "") as [-> | Haddress].
  { cbn [fst snd]. split; [now split |]. split; [discriminate |].
    split; [discriminate | intros [H _]; now elim H]. }
  unfold analyze_competitors, discover_competitors.
  destruct (geocode_address w address) as [origin | e].
  - destruct (search_nearby_roofing_companies w origin radius) as [| p ps] eqn:Hs;
      cbn [is_nil fst snd].
    + split; [now split |]. split; [discriminate |].
      split; [discriminate |].
      intros [_ [origin' [Hgeo Hne]]]. inversion Hgeo; subst.
      rewrite Hs in Hne. now elim Hne.
    + split; [intros H; now elim H |].
      split.
      * intros _. eexists. repeat split.
      * split; [| reflexivity]. intros _. split; [exact Haddress |].
        exists origin. split; [reflexivity |]. rewrite Hs. discriminate.
  - cbn [fst snd]. split; [now split |]. split; [discriminate |].
    split; [discriminate |].
    intros [_ [origin [Hgeo _]]]. discriminate Hgeo.
Qed.

Lemma main_stores_what_analyze_competitors_returns_witness :
  (exists competitors,
      analyze_competitors scenario_world "12 Main St" 5%Z = Return competitors
      /\ fst (fst (main scenario_world true "12 Main St" 5%Z None))
         = Some (Session.mk competitors "12 Main St" 5%Z)
      /\ snd (main scenario_world true "12 Main St" 5%Z None)
         = Some (summary_metrics competitors))
  /\ fst (fst (main scenario_world true "" 5%Z None)) = None.
Proof.
  split.
  - apply (proj1 (proj2 (main_stores_what_analyze_competitors_returns
                           scenario_world "12 Main St" 5%Z None))).
    reflexivity.
  - apply (proj1 (main_stores_what_analyze_competitors_returns
                    scenario_world "" 5%Z None)).
    discriminate.
Defined.

(** ** More on service gaps *)

Lemma ratio_below_30_percent_iff (count total : Z) :
  (0 < total)%Z ->
  Qlt_bool (inject_Z count / inject_Z total)%Q (3 # 10)%Q = true
  <-> (10 * count < 3 * total)%Z.
Proof.
  intros Htotal. rewrite Qlt_bool_iff.
  destruct total as [| p | p]; try lia.
  unfold Qlt, Qdiv, Qmult, Qinv, inject_Z. cbn [Qnum Qden].
  rewrite Z.mul_1_r, Pos.mul_1_l. lia.
Qed.

Lemma dict_set_keys {V : Type} (d : Dict.t V) (k : string) (v : V) :
  Dict.keys (Dict.set d k v) = add_match (Dict.keys d) k.
Proof.
  unfold add_match, Dict.keys.
  induction d as [| [k0 v0] r IH]; [reflexivity |].
  cbn [Dict.set map fst PyStr.mem existsb].
  destruct (String.eqb k k0) eqn:Hk; cbn [orb map fst].
  - reflexivity.
  - rewrite IH. unfold PyStr.mem.
    destruct (existsb (String.eqb k) (map fst r)); reflexivity.
Qed.

Lemma Counter_keys (xs : list string) : Dict.keys (Counter xs) = first_seen xs.
Proof.
  unfold Counter.
  assert (H : forall counts,
             Dict.keys
               (fold_left
                  (fun counts x =>
                     Dict.set counts x (get_default (Dict.get counts x) 0 + 1)%Z)
                  xs counts)
             = fold_left add_match xs (Dict.keys counts)).
  { induction xs as [| x r IH]; intros counts; [reflexivity |].
    cbn [fold_left]. now rewrite IH, dict_set_keys. }
  rewrite H, fold_add_match_spec. cbn [Dict.keys map app].
  now rewrite filter_all.
Qed.

Lemma all_services_flat_map (competitors : list Competitor.t) :
  all_services competitors = flat_map Competitor.services competitors.
Proof.
  unfold all_services.
  assert (H : forall acc,
             fold_left (fun acc comp => (acc ++ Competitor.services comp)%list)
                       competitors acc
             = (acc ++ flat_map Competitor.services competitors)%list).
  { induction competitors as [| c r IH]; intros acc; cbn [fold_left flat_map].
    - now rewrite app_nil_r.
    - now rewrite IH, app_assoc. }
  apply H.
Qed.

Lemma service_gaps_spec (competitors : list Competitor.t) :
  service_gaps competitors
  = Return
      (map (fun item =>
              Gap.mk (fst item) (snd item) (Z.of_nat (List.length competitors)))
           (filter
              (fun item =>
                 Qlt_bool (inject_Z (snd item)
                           / inject_Z (Z.of_nat (List.length competitors)))%Q
                          (3 # 10)%Q)
              (Counter (all_services competitors)))).
Proof.
  destruct competitors as [| c r].
  - reflexivity.
  - unfold service_gaps. rewrite gaps_loop_spec; [reflexivity |].
    cbn [List.length]. lia.
Qed.

Lemma map_fst_filter_snd (keep : string -> bool) (cond : Z -> bool) :
  forall items : list (string * Z),
    (forall s n, In (s, n) items -> cond n = keep s) ->
    map fst (filter (fun item => cond (snd item)) items)
    = filter keep (map fst items).
Proof.
  induction items as [| [s n] r IH]; intros Hagree; [reflexivity |].
  cbn [filter map fst snd].
  rewrite (Hagree s n (or_introl eq_refl)).
  destruct (keep s); cbn [map fst]; rewrite IH; try reflexivity;
    intros s' n' Hin; apply Hagree; now right.
Qed.

(** X16. The gap computation never raises, not even for the empty
    competitor list, and its result is fully determined: the flagged
    services are the services of all competitors in the order of their first
    appearance, each once, restricted to those whose number of occurrences
    is below three tenths of the number of competitors; every entry carries
    that number of occurrences, which is at least 1, and the number of
    competitors. *)
Theorem service_gaps_in_first_seen_order :
  forall competitors : list Competitor.t,
    let total := Z.of_nat (List.length competitors) in
    let occurrences service :=
      Z.of_nat (count_occ string_dec (all_services competitors) service) in
    exists gaps,
      service_gaps competitors = Return gaps
      /\ map Gap.service gaps
         = filter (fun service => (10 * occurrences service <? 3 * total)%Z)
                  (first_seen (all_services competitors))
      /\ NoDup (map Gap.service gaps)
      /\ forall g, In g gaps ->
                   Gap.total_competitors g = total
                   /\ Gap.count g = occurrences (Gap.service g)
                   /\ (1 <= Gap.count g)%Z.
Proof.
  intros competitors total occurrences.
  eexists. split; [apply service_gaps_spec |].
  fold total.
  assert (Horder :
    map Gap.service
      (map (fun item => Gap.mk (fst item) (snd item) total)
         (filter
            (fun item => Qlt_bool (inject_Z (snd item) / inject_Z total)%Q (3 # 10)%Q)
            (Counter (all_services competitors))))
    = filter (fun service => (10 * occurrences service <? 3 * total)%Z)
             (first_seen (all_services competitors))).
  { rewrite map_map. cbn [Gap.service].
    rewrite <- Counter_keys. unfold Dict.keys.
    apply (map_fst_filter_snd
             (fun service => (10 * occurrences service <? 3 * total)%Z)
             (fun n => Qlt_bool (inject_Z n / inject_Z total)%Q (3 # 10)%Q)).
    intros s n Hin. apply Counter_In in Hin. destruct Hin as [Hin ->].
    fold (occurrences s).
    assert (Htotal : (0 < total)%Z).
    { unfold total. destruct competitors as [| c r]; [| cbn [List.length]; lia].
      rewrite all_services_flat_map in Hin. destruct Hin. }
    destruct (10 * occurrences s <? 3 * total)%Z eqn:Hlt.
    - apply ratio_below_30_percent_iff; [exact Htotal | now apply Z.ltb_lt].
    - destruct (Qlt_bool _ _) eqn:Hq; [| reflexivity].
      apply ratio_below_30_percent_iff in Hq; [| exact Htotal].
      apply Z.ltb_ge in Hlt. lia. }
  split; [exact Horder |]. split.
  - rewrite Horder. apply NoDup_filter, first_seen_NoDup.
  - intros g Hg. apply in_map_iff in Hg. destruct Hg as [[s n] [<- Hin]].
    apply filter_In in Hin. destruct Hin as [Hin _].
    apply Counter_In in Hin. destruct Hin as [Hin ->].
    cbn [Gap.total_competitors Gap.count Gap.service fst snd].
    repeat split.
    apply (count_occ_In string_dec) in Hin. unfold occurrences. lia.
Qed.

(** X17. With fewer than four competitors no service is flagged: a service
    that one competitor of three offers has the ratio one third, which is not
    below 0.30. *)
Theorem no_gap_below_four_competitors :
  forall competitors : list Competitor.t,
    (List.length competitors < 4)%nat ->
    service_gaps competitors = Return [].
Proof.
  intros competitors Hfew. rewrite service_gaps_spec. f_equal.
  rewrite filter_none; [reflexivity |].
  intros [s n] Hin. cbn [snd].
  apply Counter_In in Hin. destruct Hin as [Hin ->].
  assert (Hsome : (0 < Z.of_nat (List.length competitors))%Z).
  { destruct competitors as [| c r]; [destruct Hin | cbn [List.length]; lia]. }
  apply (count_occ_In string_dec) in Hin.
  destruct (Qlt_bool _ _) eqn:Hq; [| reflexivity].
  apply ratio_below_30_percent_iff in Hq; lia.
Qed.

Lemma no_gap_below_four_competitors_witness :
  service_gaps (firstn 3 ten_competitors) = Return [].
Proof.
  apply (no_gap_below_four_competitors (firstn 3 ten_competitors)).
  cbn. lia.
Defined.

Lemma service_gaps_in_first_seen_order_witness :
  exists gaps,
    service_gaps ten_competitors = Return gaps
    /\ map Gap.service gaps = ["Skylight"; "Siding"].
Proof.
  destruct (service_gaps_in_first_seen_order ten_competitors)
    as [gaps [Hrun [Horder _]]].
  exists gaps. split; [exact Hrun |]. rewrite Horder. reflexivity.
Defined.

(** ** Complaint and theme frequencies *)

Lemma count_occ_flat_map {A : Type} (f : A -> list string) (k : string) :
  forall l : list A,
    (forall a, In a l -> NoDup (f a)) ->
    count_occ string_dec (flat_map f l) k
    = List.length (filter (fun a => PyStr.mem k (f a)) l).
Proof.
  induction l as [| a r IH]; intros Hnd; [reflexivity |].
  cbn [flat_map filter]. rewrite count_occ_app, IH
    by (intros b Hb; apply Hnd; now right).
  pose proof (Hnd a (or_introl eq_refl)) as Ha.
  destruct (PyStr.mem k (f a)) eqn:Hk.
  - apply mem_In in Hk.
    pose proof (proj1 (NoDup_count_occ string_dec (f a)) Ha k) as Hle.
    apply (count_occ_In string_dec) in Hk. cbn [List.length]. lia.
  - assert (Hnot : ~ In k (f a)).
    { intros Hin. apply mem_In in Hin. congruence. }
    apply (count_occ_not_In string_dec) in Hnot. now rewrite Hnot.
Qed.

Lemma all_negatives_flat_map (competitors : list Competitor.t) :
  all_negatives competitors = flat_map Competitor.negative_keywords competitors.
Proof.
  unfold all_negatives.
  assert (H : forall acc,
             fold_left
               (fun acc comp => (acc ++ Competitor.negative_keywords comp)%list)
               competitors acc
             = (acc ++ flat_map Competitor.negative_keywords competitors)%list).
  { induction competitors as [| c r IH]; intros acc; cbn [fold_left flat_map].
    - now rewrite app_nil_r.
    - now rewrite IH, app_assoc. }
  apply H.
Qed.

Lemma built_negative_keywords_distinct
    (w : World) (origin : Coordinate) (place : Place.t) (details : Details.t) :
  NoDup (Competitor.negative_keywords (build_competitor w origin place details)).
Proof.
  unfold build_competitor, analyze_review_keywords.
  cbn [Competitor.negative_keywords].
  apply NoDup_filter, negative_indicators_distinct.
Qed.

(** X18. In the complaint ranking of a run, the number shown for a complaint
    is the number of competitors whose reviews contain it, not the number of
    times it is written: every competitor counts at most once, so the number
    lies between 1 and the number of competitors. *)
Theorem complaint_count_is_number_of_competitors :
  forall (w : World) (your_address : string) (radius_miles : Z)
         (competitors : list Competitor.t) (complaint : string) (count : Z),
    analyze_competitors w your_address radius_miles = Return competitors ->
    In (complaint, count) (negative_counter competitors) ->
    count
    = Z.of_nat
        (List.length
           (filter
              (fun c => PyStr.mem complaint (Competitor.negative_keywords c))
              competitors))
    /\ (1 <= count <= Z.of_nat (List.length competitors))%Z.
Proof.
  intros w your_address radius_miles competitors complaint count Hrun Hin.
  unfold negative_counter in Hin. apply Counter_In in Hin.
  destruct Hin as [Hin ->].
  rewrite all_negatives_flat_map in *.
  rewrite count_occ_flat_map.
  - split; [reflexivity |].
    pose proof (filter_length_le
                  (fun c => PyStr.mem complaint (Competitor.negative_keywords c))
                  competitors) as Hle.
    apply in_flat_map in Hin. destruct Hin as [c [Hc Hk]].
    assert (Hsome : In c (filter
                            (fun c => PyStr.mem complaint
                                        (Competitor.negative_keywords c))
                            competitors)).
    { apply filter_In. split; [exact Hc | now apply mem_In]. }
    destruct (filter _ competitors) as [| x r]; [destruct Hsome |].
    cbn [List.length] in *. lia.
  - intros c Hc.
    destruct (analyze_competitors_members _ _ _ _ _ Hrun Hc)
      as [origin [place [_ [_ [_ ->]]]]].
    apply built_negative_keywords_distinct.
Qed.

Lemma complaint_count_is_number_of_competitors_witness :
  exists competitors,
    analyze_competitors complaint_world "12 Main St" 5%Z = Return competitors
    /\ In ("late", 2%Z) (negative_counter competitors)
    /\ 2%Z
       = Z.of_nat
           (List.length
              (filter
                 (fun c => PyStr.mem "late" (Competitor.negative_keywords c))
                 competitors))
    /\ (1 <= 2 <= Z.of_nat (List.length competitors))%Z.
Proof.
  eexists. split; [reflexivity |].
  assert (Hin : In ("late", 2%Z)
                   (negative_counter
                      (sort_by_distance
                         (process_places complaint_world scenario_origin
                            [slow_stub; acme_stub; tardy_stub] [])))).
  { vm_compute. tauto. }
  split; [exact Hin |].
  exact (complaint_count_is_number_of_competitors complaint_world
           "12 Main St" 5%Z _ "late" 2%Z eq_refl Hin).
Defined.

Lemma counter_add_get (counts : Dict.t Z) (key key' : string) (n : Z) :
  Dict.get (counter_add counts key n) key'
  = if String.eqb key' key
    then Some (get_default (Dict.get counts key) 0 + n)%Z
    else Dict.get counts key'.
Proof. unfold counter_add. apply dict_get_set. Qed.

Lemma add_items_get (theme : string) :
  forall (items : Dict.t Z) (counts : Dict.t Z),
    NoDup (Dict.keys items) ->
    Dict.get
      (fold_left
         (fun all_themes (item : string * Z) =>
            counter_add all_themes (fst item) (snd item))
         items counts) theme
    = match Dict.get items theme with
      | Some n => Some (get_default (Dict.get counts theme) 0 + n)%Z
      | None => Dict.get counts theme
      end.
Proof.
  induction items as [| [k v] r IH]; intros counts Hnd; [reflexivity |].
  inversion Hnd as [| ? ? Hk Hr]; subst.
  cbn [fold_left fst snd Dict.get]. rewrite (IH _ Hr), counter_add_get.
  destruct (String.eqb_spec theme k) as [-> | Hne].
  - now rewrite (dict_get_absent r k Hk).
  - reflexivity.
Qed.

Lemma Zsum_zero (l : list Z) : (forall x, In x l -> x = 0%Z) -> Zsum l = 0%Z.
Proof.
  induction l as [| x l IH]; intros H; [reflexivity |].
  rewrite Zsum_cons, (H x (or_introl eq_refl)), IH; [reflexivity |].
  intros y Hy. apply H. now right.
Qed.

Lemma all_themes_loop_get (theme : string) :
  forall (competitors : list Competitor.t) (counts : Dict.t Z),
    (forall c, In c competitors -> NoDup (Dict.keys (Competitor.review_themes c))) ->
    Dict.get
      (fold_left
         (fun all_themes comp =>
            fold_left
              (fun all_themes (item : string * Z) =>
                 counter_add all_themes (fst item) (snd item))
              (Competitor.review_themes comp) all_themes)
         competitors counts) theme
    = if existsb
           (fun c => match Dict.get (Competitor.review_themes c) theme with
                     | Some _ => true
                     | None => false
                     end)
           competitors
      then Some (get_default (Dict.get counts theme) 0
                 + Zsum (map (fun c =>
                                get_default
                                  (Dict.get (Competitor.review_themes c) theme) 0%Z)
                             competitors))%Z
      else Dict.get counts theme.
Proof.
  induction competitors as [| c r IH]; intros counts Hnd; [reflexivity |].
  cbn [fold_left existsb map]. rewrite Zsum_cons.
  rewrite IH by (intros c' Hc'; apply Hnd; now right).
  rewrite (add_items_get theme _ counts (Hnd c (or_introl eq_refl))).
  destruct (Dict.get (Competitor.review_themes c) theme) as [n |];
    cbn [orb get_default].
  - destruct (existsb _ r) eqn:Hex.
    + f_equal. lia.
    + rewrite Zsum_zero; [f_equal; lia |].
      intros x Hx. apply in_map_iff in Hx. destruct Hx as [c' [<- Hc']].
      destruct (Dict.get (Competitor.review_themes c') theme) as [m |] eqn:Hget;
        [| reflexivity].
      exfalso.
      assert (Htrue : existsb
                        (fun c => match Dict.get (Competitor.review_themes c) theme with
                                  | Some _ => true
                                  | None => false
                                  end) r = true).
      { apply existsb_exists. exists c'. split; [exact Hc' | now rewrite Hget]. }
      congruence.
  - destruct (existsb _ r); [f_equal; lia | reflexivity].
Qed.

(** X19. In the theme totals of a competitor list whose theme mappings have
    distinct keys, a theme has an entry exactly when some competitor has it,
    and its total is the sum of the counts of the competitors that have
    it. *)
Theorem all_themes_sums_the_counts :
  forall (competitors : list Competitor.t) (theme : string),
    (forall c, In c competitors -> NoDup (Dict.keys (Competitor.review_themes c))) ->
    Dict.get (all_themes competitors) theme
    = if existsb
           (fun c => match Dict.get (Competitor.review_themes c) theme with
                     | Some _ => true
                     | None => false
                     end)
           competitors
      then Some (Zsum (map (fun c =>
                              get_default
                                (Dict.get (Competitor.review_themes c) theme) 0%Z)
                           competitors))
      else None.
Proof.
  intros competitors theme Hnd. unfold all_themes.
  rewrite (all_themes_loop_get theme competitors [] Hnd).
  cbn [Dict.get get_default]. destruct (existsb _ competitors); reflexivity.
Qed.

Lemma themes_loop_keys (all_text : string) :
  forall (vocabulary : list (string * list string)) (themes : Dict.t Z),
    NoDup (Dict.keys themes) ->
    NoDup (Dict.keys (themes_loop all_text vocabulary themes)).
Proof.
  induction vocabulary as [| [th kws] r IH]; intros themes Hnd; [exact Hnd |].
  unfold themes_loop in *. cbn [fold_left]. apply IH.
  destruct (0 <? theme_count all_text kws)%Z; [| exact Hnd].
  now apply dict_set_keys_NoDup.
Qed.

Lemma all_themes_sums_the_counts_witness :
  exists competitors,
    analyze_competitors complaint_world "12 Main St" 5%Z = Return competitors
    /\ Dict.get (all_themes competitors) "speed" = Some 2%Z
    /\ Dict.get (all_themes competitors) "warranty" = None.
Proof.
  eexists. split; [reflexivity |].
  assert (Hnd : forall c,
             In c (sort_by_distance
                     (process_places complaint_world scenario_origin
                        [slow_stub; acme_stub; tardy_stub] [])) ->
             NoDup (Dict.keys (Competitor.review_themes c))).
  { intros c Hc.
    destruct (analyze_competitors_members complaint_world "12 Main St" 5%Z _ c
                eq_refl Hc) as [origin [place [_ [_ [_ ->]]]]].
    unfold build_competitor, analyze_review_keywords.
    cbn [Competitor.review_themes]. apply themes_loop_keys. constructor. }
  split.
  - exact (all_themes_sums_the_counts _ "speed" Hnd).
  - exact (all_themes_sums_the_counts _ "warranty" Hnd).
Defined.

(** ** The table of competitors *)

Lemma startswith_refl (s : string) : PyStr.startswith s s = true.
Proof. apply startswith_iff. exists "". now rewrite string_app_nil_r. Qed.

Lemma join_firstn_prefix (sep : string) (n : nat) (l : list string) :
  PyStr.startswith (PyStr.join sep l) (PyStr.join sep (firstn n l)) = true.
Proof.
  rewrite <- (firstn_skipn n l) at 1. rewrite join_app.
  destruct (firstn n l) as [| x a]; [apply startswith_iff; now eexists |].
  destruct (skipn n l) as [| y b]; [apply startswith_refl |].
  apply startswith_iff. now eexists.
Qed.

(** X20. In every row of the table the "Top Complaints" cell is a prefix of
    the "Negative Keywords" cell: it names the first complaints of that cell,
    at most three, and reads "None" where that cell reads "None found". *)
Theorem top_complaints_prefix_of_negative_keywords :
  forall comp : Competitor.t,
    PyStr.startswith (Row.Negative_Keywords (dataframe_row comp))
                     (Row.Top_Complaints (dataframe_row comp)) = true.
Proof.
  intros comp. unfold dataframe_row.
  cbn [Row.Negative_Keywords Row.Top_Complaints].
  destruct (Competitor.negative_keywords comp) as [| k r] eqn:Hneg;
    cbn [is_nil]; [reflexivity |].
  replace (firstn 3 (k :: r)) with (firstn 3 (firstn 10 (k :: r)))
    by (now rewrite firstn_firstn).
  apply join_firstn_prefix.
Qed.

(** ** Failures and sparse records *)

Lemma set_order_nil (w : World) : set_order w [] = [].
Proof.
  destruct (set_order w []) as [| x l] eqn:H; [reflexivity |].
  exfalso. apply (proj2 (set_order_spec w []) x). rewrite H. now left.
Qed.

(** X22. A stub whose details record has some field but no ['reviews'] key
    is not passed over: the loop appends a competitor for it, which has no
    pricing mention, no keyword and no theme, whose services come from the
    business name alone, and which has no service at all when the name is
    missing too. *)
Theorem record_without_reviews_gives_bare_competitor :
  forall (w : World) (origin : Coordinate) (place : Place.t)
         (after : list Place.t) (competitors : list Competitor.t),
    let details := get_place_details w (Place.place_id place) in
    Details.is_empty details = false ->
    Details.reviews details = None ->
    exists c,
      process_places w origin (place :: after) competitors
      = process_places w origin after (competitors ++ [c])%list
      /\ Competitor.pricing_info c = []
      /\ Competitor.positive_keywords c = []
      /\ Competitor.negative_keywords c = []
      /\ Competitor.review_themes c = []
      /\ Competitor.services c
         = extract_services_from_text w
             (" " ++ get_default (Details.name details) "")
      /\ (Details.name details = None -> Competitor.services c = []).
Proof.
  intros w origin place after competitors details Hfull Hreviews.
  exists (build_competitor w origin place details).
  split.
  - unfold process_places. cbn [fold_left]. fold details. now rewrite Hfull.
  - unfold build_competitor. rewrite Hreviews. cbn [get_default map PyStr.join].
    change (analyze_review_keywords [])
      with (@nil string, @nil string, @nil (string * Z)).
    cbn [Competitor.pricing_info Competitor.positive_keywords
         Competitor.negative_keywords Competitor.review_themes Competitor.services].
    repeat split.
    intros Hname. rewrite Hname. cbn [get_default].
    unfold extract_services_from_text.
    change (fold_left _ service_keywords []) with (@nil string).
    apply set_order_nil.
Qed.

Lemma record_without_reviews_gives_bare_competitor_witness :
  exists c,
    process_places (sample_world sample_pages) scenario_origin
      (unrated_stub :: [acme_stub]) []
    = process_places (sample_world sample_pages) scenario_origin [acme_stub]
        ([] ++ [c])%list
    /\ Competitor.name c = "Budget Roofs"
    /\ Competitor.pricing_info c = []
    /\ Competitor.review_themes c = [].
Proof.
  destruct (record_without_reviews_gives_bare_competitor
              (sample_world sample_pages) scenario_origin unrated_stub
              [acme_stub] [] eq_refl eq_refl)
    as [c [Hloop [Hpricing [_ [_ [Hthemes _]]]]]].
  exists c. split; [exact Hloop |]. split; [| split; assumption].
  pose proof Hloop as Hcompute. vm_compute in Hcompute.
  destruct c as [name ? ? ? ? ? ? ? ? ? ? ?]. cbn [Competitor.name].
  inversion Hcompute. reflexivity.
Defined.

(** X23. Keywords are searched in the reviews joined by single spaces, so a
    phrase may be put together from two reviews: when the text of one review
    ends, in any case, with "no" and the text of the next begins with "show",
    the negative keyword "no show" is reported although no review contains
    it. *)
Theorem keyword_spans_two_reviews :
  forall (before after : list Review.t) (first second : Review.t)
         (pre post : string),
    PyStr.lower (review_text first) = pre ++ "no" ->
    PyStr.lower (review_text second) = "show" ++ post ->
    In "no show"
       (snd (fst (analyze_review_keywords
                    (before ++ [first; second] ++ after)%list))).
Proof.
  intros before after first second pre post Hfirst Hsecond.
  unfold analyze_review_keywords. cbn [fst snd].
  apply filter_In. split; [unfold negative_indicators; simpl; tauto |].
  destruct (review_blob_middle before [first; second] after) as [a [b ->]].
  apply contains_in_context.
  unfold review_blob. cbn [map PyStr.join]. rewrite Hfirst, Hsecond.
  apply contains_iff. exists pre, post.
  rewrite !string_app_assoc. reflexivity.
Qed.

Lemma keyword_spans_two_reviews_witness :
  In "no show"
     (snd (fst (analyze_review_keywords
                  ([] ++ [Review.mk (Some "Delays? NO");
                          Review.mk (Some "Show me a better crew")] ++ [])%list))).
Proof.
  apply (keyword_spans_two_reviews [] []
           (Review.mk (Some "Delays? NO"))
           (Review.mk (Some "Show me a better crew"))
           "delays? " " me a better crew"); reflexivity.
Defined.
